(** * Trading dashboard: a shallow embedding of the TypeScript components

    The repository is a dashboard whose panels show sample figures drawn
    from [Math.random()].  Each component is embedded below as it is
    written: a JavaScript [number] is an exact rational ([Q]; rounding of
    IEEE doubles is not modelled), the values [Math.random()] returns are
    read from an explicit supply that is threaded through the code in
    source order, and the clock ([Date.now()], [new Date()]) is an explicit
    argument in milliseconds. *)

From Stdlib Require Import String.
From Stdlib Require Import QArith Qround ZArith List Lia Lqa Bool.
Import ListNotations.

Local Open Scope Q_scope.

(* ------------------------------------------------------------------ *)
(** ** The JavaScript primitives the components use *)

Module JS.

(** The values successive calls of [Math.random()] will return. *)
Definition entropy := nat -> Q.

(** [Math.random()] returns a number in [0, 1). *)
Definition unit_draws (e : entropy) : Prop := forall n, 0 <= e n /\ e n < 1.

(** Code that calls [Math.random()]: it consumes a prefix of the supply. *)
Definition Rand (A : Type) : Type := entropy -> A * entropy.

Definition ret {A} (a : A) : Rand A := fun e => (a, e).

Definition bind {A B} (m : Rand A) (k : A -> Rand B) : Rand B :=
  fun e => k (fst (m e)) (snd (m e)).

Definition Math_random : Rand Q :=
  fun e => (e O, fun n => e (S n)).

Definition run {A} (m : Rand A) (e : entropy) : A := fst (m e).

(** [Math.floor(x)] *)
Definition Math_floor (x : Q) : Z := Qfloor x.

(** [Math.round(x)]: the nearest integer, halves rounded up. *)
Definition Math_round (x : Q) : Q := inject_Z (Qfloor (x + 0.5)).

(** [Math.max(a, b)] and [Math.min(a, b)] *)
Definition Math_max (a b : Q) : Q := if Qle_bool a b then b else a.
Definition Math_min (a b : Q) : Q := if Qle_bool a b then a else b.

(** [a < b] on numbers *)
Definition lt (a b : Q) : bool := negb (Qle_bool b a).

(** [arr[k]]: [undefined] ([None]) outside the array. *)
Definition index {A} (arr : list A) (k : Z) : option A :=
  if (k <? 0)%Z then None else nth_error arr (Z.to_nat k).

(** [arr[arr.length - 1]] *)
Definition last_elem {A} (arr : list A) : option A :=
  index arr (Z.of_nat (length arr) - 1).

(** [arr.slice(-n)]: the last [n] elements, the whole array when shorter. *)
Definition slice_last {A} (n : nat) (arr : list A) : list A :=
  skipn (length arr - n) arr.

(** [v || d] where [v] is a number or [undefined]: the falsy values
    ([undefined], [0]) give [d]. *)
Definition or_else (v : option Q) (d : Q) : Q :=
  match v with
  | None => d
  | Some x => if Qeq_bool x 0 then d else x
  end.

(** A result of a division that may leave the rationals. *)
Inductive number : Type :=
| Num (q : Q)
| NaN
| Infinity.

(** [a / b] on two array lengths. *)
Definition div_lengths (a b : nat) : number :=
  match b, a with
  | O, O => NaN
  | O, S _ => Infinity
  | S _, _ => Num (inject_Z (Z.of_nat a) / inject_Z (Z.of_nat b))
  end.

(** [x * c] for a positive finite constant [c]. *)
Definition times (x : number) (c : Q) : number :=
  match x with
  | Num q => Num (q * c)
  | NaN => NaN
  | Infinity => Infinity
  end.

(** [Math.min(...xs)]: [Infinity] on no arguments. *)
Definition Math_min_all (xs : list Q) : number :=
  match xs with
  | [] => Infinity
  | x :: rest => Num (fold_left Math_min rest x)
  end.

End JS.

Declare Scope rand_scope.
Delimit Scope rand_scope with rand.
Notation "x <- m ;; k" := (JS.bind m (fun x => k))
  (at level 61, m at next level, right associativity) : rand_scope.

Import JS.

(* ------------------------------------------------------------------ *)
(** ** The signal interface both dashboard components declare *)

Module Signals.

Inductive SignalType : Type := buy | sell.
Inductive Strength : Type := weak | moderate | strong.

(** The text of a signal: the direction word, the strength word and the
    fixed tail of the template string. *)
Inductive StrengthWord : Type := word_strong | word_moderate | word_weak.
Inductive MessageTail : Type :=
| RSI_Oversold
| RSI_Overbought
| RSI_value (n : Q).

Record Message : Type := mkMessage {
  is_buy_message : bool;
  strength_word : StrengthWord;
  tail : MessageTail
}.

Record Indicators : Type := mkIndicators {
  ind_ema_short : Q;
  ind_ema_long : Q;
  ind_rsi : Q
}.

(** [signal_type] and [strength] are read out of an array by a computed
    index, so they are [undefined] ([None]) when the index is outside. *)
Record TradingSignal : Type := mkSignal {
  signal_type : option SignalType;
  strength : option Strength;
  confidence : Q;
  signal_price : Q;
  indicators : Indicators;
  message : Message;
  timestamp : Z
}.

Definition is_buy (t : option SignalType) : bool :=
  match t with Some buy => true | _ => false end.

(** [strength === 'strong' ? .. : strength === 'moderate' ? .. : ..] *)
Definition word_of (s : option Strength) : StrengthWord :=
  match s with
  | Some strong => word_strong
  | Some moderate => word_moderate
  | _ => word_weak
  end.

End Signals.

Import Signals.

(* ------------------------------------------------------------------ *)
(** ** Dashboard/TradingChart.tsx *)

Module TradingChart.

Record ChartDataPoint : Type := mkPoint {
  time : Z;
  price : Q;
  ema_short : Q;
  ema_long : Q;
  rsi : Q;
  volume : Q
}.

(** [SignalData] has the fields of the panel's [TradingSignal]. *)
Definition SignalData : Type := TradingSignal.

Local Open Scope rand_scope.

(** The body of [for (let i = 0; i < 50; i++)], with [n] iterations left
    and [i] the loop index. *)
Fixpoint sampleLoop (now : Z) (n : nat) (i : Z) (basePrice : Q)
    (data : list ChartDataPoint) : Rand (list ChartDataPoint) :=
  match n with
  | O => ret data
  | S n' =>
      let time := (now - (49 - i) * 60 * 60 * 1000)%Z in
      r <- Math_random ;;
      let priceChange := (r - 0.5) * 1000 in
      let basePrice := basePrice + priceChange in
      r <- Math_random ;;
      let ema_short := basePrice + (r - 0.5) * 200 in
      r <- Math_random ;;
      let ema_long := basePrice + (r - 0.5) * 400 in
      r <- Math_random ;;
      let rsi := Math_max 0 (Math_min 100 (50 + (r - 0.5) * 60)) in
      r <- Math_random ;;
      let pt := {| time := time;
                   price := Math_round basePrice;
                   ema_short := Math_round ema_short;
                   ema_long := Math_round ema_long;
                   rsi := Math_round (rsi * 10) / 10;
                   volume := Math_round (r * 100000) |} in
      sampleLoop now n' (i + 1)%Z basePrice (data ++ [pt])
  end.

Definition generateSampleData (now : Z) : Rand (list ChartDataPoint) :=
  sampleLoop now 50 0%Z 43000 [].

Definition signalTypes : list SignalType := [buy; sell].
Definition strengths : list Strength := [weak; moderate; strong].

(** [generateSampleSignal] reads the [chartData] of the render it closes
    over. *)
Definition generateSampleSignal (now : Z) (chartData : list ChartDataPoint)
    : Rand SignalData :=
  let latestData := last_elem chartData in
  r <- Math_random ;;
  let signal_type :=
    index signalTypes (Math_floor (r * inject_Z (Z.of_nat (length signalTypes)))) in
  r <- Math_random ;;
  let strength :=
    index strengths (Math_floor (r * inject_Z (Z.of_nat (length strengths)))) in
  r <- Math_random ;;
  ret {| signal_type := signal_type;
         strength := strength;
         confidence := Math_round ((r * 40 + 60) * 10) / 10;
         signal_price := or_else (option_map price latestData) 43000;
         indicators :=
           {| ind_ema_short := or_else (option_map ema_short latestData) 43200;
              ind_ema_long := or_else (option_map ema_long latestData) 42800;
              ind_rsi := or_else (option_map rsi latestData) 65 |};
         message :=
           if is_buy signal_type
           then mkMessage true (word_of strength) RSI_Oversold
           else mkMessage false (word_of strength) RSI_Overbought;
         timestamp := now |}.

(** The updater passed to [setChartData] every 5 seconds.  Reading
    [lastData.price] of an empty series throws a TypeError ([None]). *)
Definition realTimeUpdate (now : Z) (prevData : list ChartDataPoint)
    : Rand (option (list ChartDataPoint)) :=
  let newData := prevData in
  let lastData := last_elem newData in
  let time := now in
  r <- Math_random ;;
  let priceChange := (r - 0.5) * 500 in
  match lastData with
  | None => ret None
  | Some lastData =>
      let newPrice := price lastData + priceChange in
      r2 <- Math_random ;;
      r3 <- Math_random ;;
      r4 <- Math_random ;;
      r5 <- Math_random ;;
      let pt := {| time := time;
                   price := Math_round newPrice;
                   ema_short := Math_round (newPrice + (r2 - 0.5) * 200);
                   ema_long := Math_round (newPrice + (r3 - 0.5) * 400);
                   rsi := Math_max 0 (Math_min 100 (rsi lastData + (r4 - 0.5) * 10));
                   volume := Math_round (r5 * 100000) |} in
      ret (Some (slice_last 50 (newData ++ [pt])))
  end.

(** [if (Math.random() < 0.3) setCurrentSignal(generateSampleSignal())]:
    the signal a tick emits, if any. *)
Definition maybeSignal (now : Z) (chartData : list ChartDataPoint)
    : Rand (option SignalData) :=
  r <- Math_random ;;
  if lt r 0.3
  then (s <- generateSampleSignal now chartData ;; ret (Some s))
  else ret None.

(** The component state the two effects write. *)
Record ChartState : Type := mkChart {
  chartData : list ChartDataPoint;
  currentSignal : option SignalData
}.

(** The load that runs 1.5 seconds after the mount or a change of exchange
    or pair: it replaces the series and sets a signal, generated from the
    series of the render the effect closes over. *)
Definition initialLoad (now : Z) (st : ChartState) : Rand ChartState :=
  data <- generateSampleData now ;;
  s <- generateSampleSignal now (chartData st) ;;
  ret {| chartData := data; currentSignal := Some s |}.

(** One run of the interval callback, in source order: the updater of
    [setChartData], then the signal of the tick.  A callback whose updater
    throws leaves no state ([None]). *)
Definition intervalCallback (now : Z) (st : ChartState)
    : Rand (option ChartState) :=
  step <- realTimeUpdate now (chartData st) ;;
  emitted <- maybeSignal now (chartData st) ;;
  ret match step with
      | None => None
      | Some newData =>
          Some {| chartData := newData;
                  currentSignal := match emitted with
                                   | Some s => Some s
                                   | None => currentSignal st
                                   end |}
      end.

(** [n] ticks of the 5 second interval; a tick whose updater throws ends
    the run ([None]). *)
Fixpoint ticks (now : Z) (n : nat) (st : ChartState)
    : Rand (option ChartState) :=
  match n with
  | O => ret (Some st)
  | S n' =>
      step <- intervalCallback now st ;;
      match step with
      | None => ret None
      | Some st' => ticks (now + 5000)%Z n' st'
      end
  end.

End TradingChart.

(* ------------------------------------------------------------------ *)
(** ** Dashboard/SignalPanel.tsx *)

Module SignalPanel.

Local Open Scope rand_scope.

Definition signalTypes : list SignalType := [buy; sell].
Definition strengths : list Strength := [weak; moderate; strong].

Definition generateSampleSignal (now : Z) : Rand TradingSignal :=
  r <- Math_random ;;
  let signal_type :=
    index signalTypes (Math_floor (r * inject_Z (Z.of_nat (length signalTypes)))) in
  r <- Math_random ;;
  let strength :=
    index strengths (Math_floor (r * inject_Z (Z.of_nat (length strengths)))) in
  r <- Math_random ;;
  let confidence := Math_round ((r * 40 + 60) * 10) / 10 in
  r4 <- Math_random ;;
  r5 <- Math_random ;;
  r6 <- Math_random ;;
  r7 <- Math_random ;;
  r8 <- Math_random ;;
  ret {| signal_type := signal_type;
         strength := strength;
         confidence := confidence;
         signal_price := 43000 + (r4 - 0.5) * 2000;
         indicators :=
           {| ind_ema_short := 43200 + (r5 - 0.5) * 300;
              ind_ema_long := 42800 + (r6 - 0.5) * 500;
              ind_rsi := Math_round ((r7 * 80 + 10) * 10) / 10 |};
         message :=
           if is_buy signal_type
           then mkMessage true (word_of strength)
                  (RSI_value (Math_round (r8 * 30 + 10)))
           else mkMessage false (word_of strength)
                  (RSI_value (Math_round (r8 * 30 + 70)));
         timestamp := now |}.

(** The initial load and every 10 second refresh both call
    [setCurrentSignal(generateSampleSignal())]. *)
Definition refresh (now : Z) : Rand (option TradingSignal) :=
  s <- generateSampleSignal now ;;
  ret (Some s).

(** What the component does to the outside: it writes to the console. *)
Inductive Effect : Type :=
| Log_executing_trade (s : TradingSignal).

Definition handleExecuteTrade (currentSignal : option TradingSignal)
    : list Effect :=
  match currentSignal with
  | None => []
  | Some s => [Log_executing_trade s]
  end.

(** [disabled={currentSignal.confidence < 60}] *)
Definition executeDisabled (currentSignal : TradingSignal) : bool :=
  lt (confidence currentSignal) 60.

(** A click on the execute button.  The button is rendered only while
    there is a current signal, and a disabled button does not call its
    [onClick]. *)
Definition clickExecute (currentSignal : option TradingSignal)
    : list Effect :=
  match currentSignal with
  | None => []
  | Some s =>
      if executeDisabled s then [] else handleExecuteTrade currentSignal
  end.

Record MarketData : Type := mkMarket {
  price : Q;
  change_24h : Q;
  volume_24h : Q;
  high_24h : Q;
  low_24h : Q
}.

Definition generateMarketData : Rand MarketData :=
  let basePrice := 43000 in
  r <- Math_random ;;
  let change := (r - 0.5) * 10 in
  r1 <- Math_random ;;
  r2 <- Math_random ;;
  r3 <- Math_random ;;
  r4 <- Math_random ;;
  ret {| price := basePrice + (r1 - 0.5) * 2000;
         change_24h := change;
         volume_24h := Math_round (r2 * 10000000);
         high_24h := basePrice + r3 * 1500;
         low_24h := basePrice - r4 * 1500 |}.

(** The state the panel's effect writes on the initial load and on every
    10 second refresh: signal first, market data second. *)
Record PanelState : Type := mkPanel {
  currentSignal : option TradingSignal;
  marketData : option MarketData;
  lastUpdate : Z
}.

Definition reload (now : Z) : Rand PanelState :=
  s <- generateSampleSignal now ;;
  m <- generateMarketData ;;
  ret {| currentSignal := Some s; marketData := Some m; lastUpdate := now |}.

Definition getSignalColor (signal : TradingSignal) : string :=
  if is_buy (signal_type signal)
  then match strength signal with
       | Some strong => "text-green-400"
       | Some moderate => "text-green-300"
       | _ => "text-green-200"
       end
  else match strength signal with
       | Some strong => "text-red-400"
       | Some moderate => "text-red-300"
       | _ => "text-red-200"
       end.

Definition getSignalBadgeColor (signal : TradingSignal) : string :=
  if is_buy (signal_type signal)
  then match strength signal with
       | Some strong => "bg-green-600"
       | Some moderate => "bg-green-500"
       | _ => "bg-green-400"
       end
  else match strength signal with
       | Some strong => "bg-red-600"
       | Some moderate => "bg-red-500"
       | _ => "bg-red-400"
       end.

End SignalPanel.

(* ------------------------------------------------------------------ *)
(** ** Settings/TradingParams.tsx *)

Module TradingParams.

Record TradingSettings : Type := mkSettings {
  emaShortPeriod : Q;
  emaLongPeriod : Q;
  rsiPeriod : Q;
  rsiOverbought : Q;
  rsiOversold : Q;
  maxTradeAmount : Q;
  tradeAmountPercent : Q;
  stopLossPercent : Q;
  takeProfitPercent : Q;
  minTimeBetweenTrades : Q;
  autoTradingEnabled : bool;
  minConfidence : Q
}.

Definition DEFAULT_SETTINGS : TradingSettings :=
  {| emaShortPeriod := 12;
     emaLongPeriod := 26;
     rsiPeriod := 14;
     rsiOverbought := 70;
     rsiOversold := 30;
     maxTradeAmount := 100;
     tradeAmountPercent := 2;
     stopLossPercent := 2;
     takeProfitPercent := 4;
     minTimeBetweenTrades := 300;
     autoTradingEnabled := false;
     minConfidence := 70 |}.

End TradingParams.

(* ------------------------------------------------------------------ *)
(** ** Backtest/BacktestForm.tsx *)

Module BacktestForm.

Local Open Scope rand_scope.

Record BacktestParams : Type := mkParams {
  timeframe : string;
  startDate : string;
  endDate : string;
  initialBalance : Q;
  tradeAmountPercent : Q;
  emaShortPeriod : Q;
  emaLongPeriod : Q;
  rsiPeriod : Q;
  rsiOverbought : Q;
  rsiOversold : Q
}.

Record BacktestResult : Type := mkResult {
  success : bool;
  totalReturn : Q;
  totalReturnPercent : Q;
  totalTrades : Q;
  winRate : Q;
  maxDrawdown : Q;
  sharpeRatio : Q
}.

(** The component state [runBacktest] writes. *)
Record FormState : Type := mkState {
  loading : bool;
  result : option BacktestResult
}.

Inductive Exception : Type := Thrown.

(** The [try] block: it logs the parameters, waits three seconds and
    builds [mockResult]. *)
Definition tryBlock (exchange pair : string) (params : BacktestParams)
    : Rand (Exception + BacktestResult) :=
  r1 <- Math_random ;;
  r2 <- Math_random ;;
  r3 <- Math_random ;;
  r4 <- Math_random ;;
  r5 <- Math_random ;;
  r6 <- Math_random ;;
  let mockResult :=
    {| success := true;
       totalReturn := r1 * 400 - 100;
       totalReturnPercent := r2 * 40 - 10;
       totalTrades := inject_Z (Math_floor (r3 * 50)) + 20;
       winRate := r4 * 40 + 50;
       maxDrawdown := r5 * -15;
       sharpeRatio := r6 * 2 + 0.5 |} in
  ret (inr mockResult).

(** The [catch] block's result. *)
Definition failedResult : BacktestResult :=
  {| success := false;
     totalReturn := 0;
     totalReturnPercent := 0;
     totalTrades := 0;
     winRate := 0;
     maxDrawdown := 0;
     sharpeRatio := 0 |}.

Definition runBacktest (exchange pair : string)
    (params : BacktestParams) : Rand FormState :=
  outcome <- tryBlock exchange pair params ;;
  let result :=
    match outcome with
    | inr mockResult => mockResult
    | inl _ => failedResult
    end in
  ret {| loading := false; result := Some result |}.

End BacktestForm.

(* ------------------------------------------------------------------ *)
(** ** Backtest/ResultsChart.tsx *)

Module ResultsChart.

Local Open Scope rand_scope.

Record Trade : Type := mkTrade {
  trade_timestamp : string;
  type : SignalType;
  trade_price : Q;
  amount : Q;
  profit : Q
}.

Record PerformanceData : Type := mkPerf {
  date : Z;
  balance : Q;
  trades : Q;
  profitLoss : Q;
  drawdown : Q
}.

Definition SAMPLE_TRADES : list Trade :=
  [ mkTrade "2024-01-01 10:00"%string buy 42500 0.023 0;
    mkTrade "2024-01-01 14:30"%string sell 43200 0.023 16.1;
    mkTrade "2024-01-02 09:15"%string buy 43800 0.024 0;
    mkTrade "2024-01-02 16:45"%string sell 43100 0.024 (-16.8);
    mkTrade "2024-01-03 11:20"%string buy 44200 0.022 0;
    mkTrade "2024-01-03 18:00"%string sell 45100 0.022 19.8 ].

(** [drawdown: balance < 1000 ? ((balance - 1000) / 1000) * 100 : 0] *)
Definition drawdownOf (balance : Q) : Q :=
  if lt balance 1000 then ((balance - 1000) / 1000) * 100 else 0.

(** The body of [for (let i = 0; i < 30; i++)], with [n] iterations left. *)
Fixpoint performanceLoop (now : Z) (n : nat) (i : Z) (balance : Q)
    (data : list PerformanceData) : Rand (list PerformanceData) :=
  match n with
  | O => ret data
  | S n' =>
      let date := (now - (29 - i) * 24 * 60 * 60 * 1000)%Z in
      r <- Math_random ;;
      let dailyReturn := (r - 0.45) * 50 in
      r <- Math_random ;;
      let trades := inject_Z (Math_floor (r * 4)) in
      let balance := balance + dailyReturn in
      let row := {| date := date;
                    balance := Math_round (balance * 100) / 100;
                    trades := trades;
                    profitLoss := dailyReturn;
                    drawdown := drawdownOf balance |} in
      performanceLoop now n' (i + 1)%Z balance (data ++ [row])
  end.

Definition generatePerformanceData (now : Z) : Rand (list PerformanceData) :=
  performanceLoop now 30 0%Z 1000 [].

(** The summary figures of the component, as functions of the ledger and
    of the performance rows they are computed from. *)
Definition totalTradesOf (ledger : list Trade) : nat := length ledger.

Definition winningTradesOf (ledger : list Trade) : nat :=
  length (filter (fun t => lt 0 (profit t)) ledger).

Definition winRateOf (ledger : list Trade) : number :=
  times (div_lengths (winningTradesOf ledger) (totalTradesOf ledger)) 100.

Definition maxDrawdownOf (performanceData : list PerformanceData) : number :=
  Math_min_all (map drawdown performanceData).

Definition totalTrades : nat := totalTradesOf SAMPLE_TRADES.
Definition winningTrades : nat := winningTradesOf SAMPLE_TRADES.
Definition winRate : number := winRateOf SAMPLE_TRADES.

(** [performanceData[performanceData.length - 1]?.balance - 1000 || 0]:
    on no rows the difference is NaN, which [||] turns into 0. *)
Definition totalReturnOf (performanceData : list PerformanceData) : Q :=
  or_else (option_map (fun row => balance row - 1000)
             (last_elem performanceData)) 0.

Definition totalReturnPercentOf (performanceData : list PerformanceData) : Q :=
  (totalReturnOf performanceData / 1000) * 100.

End ResultsChart.

(* ------------------------------------------------------------------ *)
(** ** Settings/APIConfig.tsx *)

Module APIConfig.

Local Open Scope rand_scope.

Record ExchangeConfig : Type := mkConfig {
  apiKey : string;
  secret : string;
  isConnected : bool;
  lastTest : option Z
}.

(** [Record<string, ExchangeConfig>], keyed by the exchange ids the
    selects offer (none of them a property name of [Object.prototype]). *)
Definition Configs : Type := string -> option ExchangeConfig.

Definition noConfigs : Configs := fun _ => None.

(** [{ ...prev, [exchange]: config }] *)
Definition withConfig (prev : Configs) (exchange : string)
    (config : ExchangeConfig) : Configs :=
  fun k => if String.eqb k exchange then Some config else prev k.

Inductive Message : Type :=
| Fill_both_fields
| Saved_and_tested
| Save_failed
| Enter_keys_first
| Connection_established
| Keys_invalid
| Test_failed.

Record TestResult : Type := mkTestResult {
  success : bool;
  text : Message
}.

Record State : Type := mkState {
  configs : Configs;
  currentConfig : ExchangeConfig;
  loading : bool;
  testResult : option TestResult
}.

Definition blankConfig : ExchangeConfig :=
  {| apiKey := ""; secret := ""; isConnected := false; lastTest := None |}.

Definition initialState : State :=
  {| configs := noConfigs;
     currentConfig := blankConfig;
     loading := false;
     testResult := None |}.

(** What the handlers write to the console. *)
Inductive Effect : Type :=
| Log_saving (exchange userId key secretText : string)
| Log_testing (exchange : string).

Inductive Field : Type := field_apiKey | field_secret.

(** [!s] on a string: true on the empty string only. *)
Definition empty (s : string) : bool := String.eqb s "".

Definition handleInputChange (field : Field) (value : string) (st : State)
    : State :=
  let prev := currentConfig st in
  {| configs := configs st;
     currentConfig :=
       match field with
       | field_apiKey =>
           {| apiKey := value; secret := secret prev;
              isConnected := isConnected prev; lastTest := lastTest prev |}
       | field_secret =>
           {| apiKey := apiKey prev; secret := value;
              isConnected := isConnected prev; lastTest := lastTest prev |}
       end;
     loading := loading st;
     testResult := testResult st |}.

(** [handleSaveConfig], run to its end with the state it closed over. *)
Definition handleSaveConfig (userId selectedExchange : string) (now : Z)
    (st : State) : State * list Effect :=
  if empty (apiKey (currentConfig st)) || empty (secret (currentConfig st))
  then ({| configs := configs st;
           currentConfig := currentConfig st;
           loading := loading st;
           testResult := Some (mkTestResult false Fill_both_fields) |}, [])
  else
    let updatedConfig :=
      {| apiKey := apiKey (currentConfig st);
         secret := secret (currentConfig st);
         isConnected := true;
         lastTest := Some now |} in
    ({| configs := withConfig (configs st) selectedExchange updatedConfig;
        currentConfig := updatedConfig;
        loading := false;
        testResult := Some (mkTestResult true Saved_and_tested) |},
     [Log_saving selectedExchange userId
        (apiKey (currentConfig st)) (secret (currentConfig st))]).

(** [handleTestConnection], run to its end. *)
Definition handleTestConnection (selectedExchange : string) (now : Z)
    (st : State) : Rand (State * list Effect) :=
  if empty (apiKey (currentConfig st)) || empty (secret (currentConfig st))
  then ret ({| configs := configs st;
               currentConfig := currentConfig st;
               loading := loading st;
               testResult := Some (mkTestResult false Enter_keys_first) |}, [])
  else
    r <- Math_random ;;
    let isSuccess := lt 0.3 r in
    if isSuccess
    then ret ({| configs := configs st;
                 currentConfig :=
                   {| apiKey := apiKey (currentConfig st);
                      secret := secret (currentConfig st);
                      isConnected := true;
                      lastTest := Some now |};
                 loading := false;
                 testResult := Some (mkTestResult true Connection_established) |},
              [Log_testing selectedExchange])
    else ret ({| configs := configs st;
                 currentConfig := currentConfig st;
                 loading := false;
                 testResult := Some (mkTestResult false Keys_invalid) |},
              [Log_testing selectedExchange]).

Definition handleExchangeSelect (exchange : string) (st : State) : State :=
  let savedConfig := configs st exchange in
  {| configs := configs st;
     currentConfig := match savedConfig with
                      | Some c => c
                      | None => blankConfig
                      end;
     loading := loading st;
     testResult := None |}.

(** The status tab's dot for an exchange: [config?.isConnected]. *)
Definition shownConnected (st : State) (exchange : string) : bool :=
  match configs st exchange with
  | Some c => isConnected c
  | None => false
  end.

(** A user action on the component. *)
Inductive Action : Type :=
| Type_in (field : Field) (value : string)
| Click_save
| Click_test
| Select_exchange (exchange : string).

Definition act (userId selectedExchange : string) (now : Z) (a : Action)
    (st : State) : Rand (State * list Effect) :=
  match a with
  | Type_in field value => ret (handleInputChange field value st, [])
  | Click_save => ret (handleSaveConfig userId selectedExchange now st)
  | Click_test => handleTestConnection selectedExchange now st
  | Select_exchange exchange => ret (handleExchangeSelect exchange st, [])
  end.

(** A sequence of actions with the time of each, each run to its end
    before the next. *)
Fixpoint session (userId selectedExchange : string)
    (actions : list (Z * Action)) (st : State) : Rand (State * list Effect) :=
  match actions with
  | [] => ret (st, [])
  | (now, a) :: rest =>
      step <- act userId selectedExchange now a st ;;
      later <- session userId selectedExchange rest (fst step) ;;
      ret (fst later, snd step ++ snd later)
  end.

End APIConfig.

(* ------------------------------------------------------------------ *)
(** ** Dashboard/ExchangeSelector.tsx *)

Module ExchangeSelector.

Inductive Status : Type := active | coming_soon.

Record Exchange : Type := mkExchange {
  value : string;
  status : Status;
  pairs : list string
}.

Definition EXCHANGES : list Exchange :=
  [ mkExchange "nobitex" active
      ["BTC/USDT"; "ETH/USDT"; "BTC/IRT"; "ETH/IRT"; "USDT/IRT"]%string;
    mkExchange "wallex" coming_soon
      ["BTC/USDT"; "ETH/USDT"; "BNB/USDT"]%string;
    mkExchange "ramzinex" coming_soon
      ["BTC/USDT"; "ETH/USDT"; "ADA/USDT"]%string ].

Definition ALL_PAIRS : list string :=
  ["BTC/USDT"; "ETH/USDT"; "BNB/USDT"; "ADA/USDT";
   "BTC/IRT"; "ETH/IRT"; "USDT/IRT"]%string.

(** [EXCHANGES.find(ex => ex.value === selectedExchange)] *)
Definition currentExchange (selectedExchange : string) : option Exchange :=
  find (fun ex => String.eqb (value ex) selectedExchange) EXCHANGES.

(** [currentExchange?.pairs || ALL_PAIRS]: an array is truthy, also when
    empty. *)
Definition availablePairs (selectedExchange : string) : list string :=
  match currentExchange selectedExchange with
  | Some ex => pairs ex
  | None => ALL_PAIRS
  end.

(** An option of the exchange select is disabled unless its exchange is
    active. *)
Definition optionDisabled (ex : Exchange) : bool :=
  match status ex with active => false | coming_soon => true end.

(** The connection dot: [currentExchange?.status === 'active']. *)
Definition shownConnected (selectedExchange : string) : bool :=
  match currentExchange selectedExchange with
  | Some ex => negb (optionDisabled ex)
  | None => false
  end.

(** [s.includes(t)] *)
Fixpoint includes (s t : string) : bool :=
  if String.prefix t s then true
  else match s with
       | EmptyString => false
       | String _ rest => includes rest t
       end.

(** The currency badges of a pair in the pair select. *)
Inductive PairBadge : Type := badge_toman | badge_USDT.

Definition pairBadges (pair : string) : list PairBadge :=
  (if includes pair "IRT" then [badge_toman] else [])
  ++ (if includes pair "USDT" && negb (includes pair "IRT")
      then [badge_USDT] else []).

End ExchangeSelector.

(* ------------------------------------------------------------------ *)
(** ** The claims' notions, in the words of the specification *)

Module Spec.

(** A crossover on this bar: the short EMA moves from at or below the long
    EMA on the previous bar to above it on this bar ([up_cross]), or the
    other way round ([down_cross]). *)
Definition up_cross (prev cur : TradingChart.ChartDataPoint) : Prop :=
  TradingChart.ema_short prev <= TradingChart.ema_long prev
  /\ TradingChart.ema_long cur < TradingChart.ema_short cur.

Definition down_cross (prev cur : TradingChart.ChartDataPoint) : Prop :=
  TradingChart.ema_long prev <= TradingChart.ema_short prev
  /\ TradingChart.ema_short cur < TradingChart.ema_long cur.

(** The simple average of a list of closes, as the specification seeds
    the EMA. *)
Definition simple_average (closes : list Q) : Q :=
  fold_right Qplus 0 closes / inject_Z (Z.of_nat (length closes)).

(** The number of values the specification gives an EMA of period [p]
    over [n] bars. *)
Definition output_length (n p : nat) : nat := n - p + 1.

(** [(balance[i] - runningPeak[i]) / runningPeak[i] * 100] along an equity
    curve, [peak] being the maximum of the balances before it. *)
Fixpoint drawdownsFromPeak (peak : Q) (balances : list Q) : list Q :=
  match balances with
  | [] => []
  | b :: rest =>
      let peak := Math_max peak b in
      (b - peak) / peak * 100 :: drawdownsFromPeak peak rest
  end.

(** The minimum of the drawdowns from the running peak. *)
Definition maxDrawdownPercent (balances : list Q) : number :=
  match balances with
  | [] => Infinity
  | b :: _ => Math_min_all (drawdownsFromPeak b balances)
  end.

(** The count of the trades whose profit is positive. *)
Fixpoint countProfitable (ledger : list ResultsChart.Trade) : nat :=
  match ledger with
  | [] => 0
  | t :: rest =>
      if Qlt_le_dec 0 (ResultsChart.profit t)
      then S (countProfitable rest)
      else countProfitable rest
  end.

(** count(profit > 0) / count(trades), and 0 when there are no trades. *)
Definition winRate (ledger : list ResultsChart.Trade) : Q :=
  match ledger with
  | [] => 0
  | _ :: _ =>
      inject_Z (Z.of_nat (countProfitable ledger))
      / inject_Z (Z.of_nat (length ledger))
  end.

(** [startDate >= endDate] on the ISO dates of the form, as the claim
    words the rejected range (the source has no such test). *)
Definition startDate_not_before_endDate (p : BacktestForm.BacktestParams) : bool :=
  String.leb (BacktestForm.endDate p) (BacktestForm.startDate p).

End Spec.

(* ------------------------------------------------------------------ *)
(** ** What the loops build, one iteration at a time *)

Section ChartTrace.

Import TradingChart.

(** The supply after [k] more draws. *)
Definition after (k : nat) (e : entropy) : entropy := fun n => e (k + n)%nat.

(** The point one iteration of the loop pushes, from the base price
    before the iteration. *)
Definition samplePoint (now i : Z) (basePrice : Q) (e : entropy)
    : ChartDataPoint :=
  let basePrice' := basePrice + (e 0%nat - 0.5) * 1000 in
  {| time := (now - (49 - i) * 60 * 60 * 1000)%Z;
     price := Math_round basePrice';
     ema_short := Math_round (basePrice' + (e 1%nat - 0.5) * 200);
     ema_long := Math_round (basePrice' + (e 2%nat - 0.5) * 400);
     rsi := Math_round
              (Math_max 0 (Math_min 100 (50 + (e 3%nat - 0.5) * 60)) * 10) / 10;
     volume := Math_round (e 4%nat * 100000) |}.

Fixpoint samplePoints (now : Z) (n : nat) (i : Z) (basePrice : Q)
    (e : entropy) : list ChartDataPoint :=
  match n with
  | O => []
  | S n' =>
      samplePoint now i basePrice e
      :: samplePoints now n' (i + 1)%Z
           (basePrice + (e 0%nat - 0.5) * 1000) (after 5 e)
  end.

(** The point a tick appends after [lastData]. *)
Definition tickPoint (now : Z) (lastData : ChartDataPoint) (e : entropy)
    : ChartDataPoint :=
  let newPrice := price lastData + (e 0%nat - 0.5) * 500 in
  {| time := now;
     price := Math_round newPrice;
     ema_short := Math_round (newPrice + (e 1%nat - 0.5) * 200);
     ema_long := Math_round (newPrice + (e 2%nat - 0.5) * 400);
     rsi := Math_max 0 (Math_min 100 (rsi lastData + (e 3%nat - 0.5) * 10));
     volume := Math_round (e 4%nat * 100000) |}.

Definition rsi_in_range (pt : ChartDataPoint) : Prop :=
  0 <= rsi pt /\ rsi pt <= 100.

Definition ema_near_price (pt : ChartDataPoint) : Prop :=
  (-101 < ema_short pt - price pt /\ ema_short pt - price pt < 101)
  /\ (-201 < ema_long pt - price pt /\ ema_long pt - price pt < 201).

End ChartTrace.

Section PerformanceTrace.

Import ResultsChart.

(** The row one iteration of the loop pushes, from the balance before it. *)
Definition perfRow (now i : Z) (balance0 : Q) (e : entropy) : PerformanceData :=
  let dailyReturn := (e 0%nat - 0.45) * 50 in
  {| date := (now - (29 - i) * 24 * 60 * 60 * 1000)%Z;
     balance := Math_round ((balance0 + dailyReturn) * 100) / 100;
     trades := inject_Z (Math_floor (e 1%nat * 4));
     profitLoss := dailyReturn;
     drawdown := drawdownOf (balance0 + dailyReturn) |}.

Fixpoint perfRows (now : Z) (n : nat) (i : Z) (balance0 : Q) (e : entropy)
    : list PerformanceData :=
  match n with
  | O => []
  | S n' =>
      perfRow now i balance0 e
      :: perfRows now n' (i + 1)%Z (balance0 + (e 0%nat - 0.45) * 50) (after 2 e)
  end.

(** The running balance before rounding: the initial balance plus the
    daily returns of the rows so far. *)
Definition unroundedBalance (start : Q) (rows : list PerformanceData) : Q :=
  fold_left (fun b row => b + profitLoss row) rows start.

End PerformanceTrace.

(* ------------------------------------------------------------------ *)
(** ** Sample supplies and inputs *)

Section Samples.

Import BacktestForm.

(** A supply whose every draw is 0.5, and one whose every draw is 0. *)
Definition steady : entropy := fun _ => 0.5.
Definition lowest : entropy := fun _ => 0.

(** A supply whose draws are all 0.125: the confidence drawn is 65. *)
Definition modest : entropy := fun _ => 0.125.

(** A supply whose second draw is 0 and whose other draws are 0.5: flat
    prices, and a short EMA 100 below the first bar's price. *)
Definition dip : entropy := fun n => match n with 1%nat => 0 | _ => 0.5 end.

(** A supply that lifts the balance to 1020 on the first day, drops it to
    1005 on the second and keeps it there. *)
Definition swing : entropy :=
  fun n => match n with 0%nat => 0.85 | 2%nat => 0.15 | _ => 0.45 end.

Definition monthParams : BacktestParams :=
  mkParams "1h" "2024-01-01" "2024-01-31" 1000 10 12 26 14 70 30.

Definition sameDayParams : BacktestParams :=
  mkParams "1h" "2024-01-01" "2024-01-01" 1000 10 12 26 14 70 30.

(** Two bars with the short EMA above the long EMA on both: no crossover. *)
Definition above1 : TradingChart.ChartDataPoint :=
  TradingChart.mkPoint 0 43000 43050 42900 50 1000.
Definition above2 : TradingChart.ChartDataPoint :=
  TradingChart.mkPoint 5000 43010 43060 42910 50 1000.

(** Two bars on which the short EMA crosses from below to above. *)
Definition below1 : TradingChart.ChartDataPoint :=
  TradingChart.mkPoint 0 43000 42950 43050 50 1000.
Definition crossed2 : TradingChart.ChartDataPoint :=
  TradingChart.mkPoint 5000 43010 43060 42960 50 1000.

(** A signal of confidence 55. *)
Definition faintSignal : TradingSignal :=
  {| signal_type := Some buy;
     strength := Some weak;
     confidence := 55;
     signal_price := 43000;
     indicators := mkIndicators 43200 42800 45;
     message := mkMessage true word_weak (RSI_value 25);
     timestamp := 0 |}.

End Samples.

(* ------------------------------------------------------------------ *)
(** ** Facts about the primitives *)

(** Divisions by the constants of the source, as multiplications. *)
Ltac by_constants :=
  unfold Qdiv in *;
  change (/ 10) with (1 # 10) in *;
  change (/ 100) with (1 # 100) in *;
  change (/ 1000) with (1 # 1000) in *.

Section Primitives.

Lemma Math_round_upper (x : Q) : Math_round x <= x + 0.5.
Proof. unfold Math_round. apply Qfloor_le. Qed.

Lemma Math_round_lower (x : Q) : x - 0.5 < Math_round x.
Proof.
  unfold Math_round.
  pose proof (Qlt_floor (x + 0.5)) as H.
  rewrite inject_Z_plus in H. change (inject_Z 1) with 1 in H.
  set (f := inject_Z (Qfloor (x + 0.5))) in *. lra.
Qed.

Lemma Math_round_mono (x y : Q) : x <= y -> Math_round x <= Math_round y.
Proof.
  intros H. unfold Math_round. rewrite <- Zle_Qle.
  apply Qfloor_resp_le. lra.
Qed.

Lemma Math_round_integer (z : Z) : Math_round (inject_Z z) == inject_Z z.
Proof.
  unfold Math_round.
  assert (Qfloor (inject_Z z + 0.5) = z) as ->; [|reflexivity].
  pose proof (Qfloor_le (inject_Z z + 0.5)) as Hle.
  pose proof (Qlt_floor (inject_Z z + 0.5)) as Hlt.
  rewrite inject_Z_plus in Hlt. change (inject_Z 1) with 1 in Hlt.
  set (k := Qfloor (inject_Z z + 0.5)) in *.
  assert (inject_Z k < inject_Z (z + 1)) as H1.
  { rewrite inject_Z_plus. change (inject_Z 1) with 1.
    set (a := inject_Z k) in *. set (b := inject_Z z) in *. lra. }
  assert (z <= k)%Z as H2.
  { rewrite <- (Qfloor_Z z). apply Qfloor_resp_le.
    set (b := inject_Z z). lra. }
  rewrite <- Zlt_Qlt in H1. lia.
Qed.

Lemma Math_round_between (lo hi : Z) (x : Q) :
  inject_Z lo <= x -> x <= inject_Z hi ->
  inject_Z lo <= Math_round x /\ Math_round x <= inject_Z hi.
Proof.
  intros Hlo Hhi. split.
  - rewrite <- (Math_round_integer lo). now apply Math_round_mono.
  - rewrite <- (Math_round_integer hi). now apply Math_round_mono.
Qed.

Lemma Math_max_spec (a b : Q) : a <= Math_max a b /\ b <= Math_max a b.
Proof.
  unfold Math_max. destruct (Qle_bool a b) eqn:E.
  - apply Qle_bool_iff in E. lra.
  - assert (~ a <= b) by (rewrite <- Qle_bool_iff; congruence). lra.
Qed.

Lemma Math_min_spec (a b : Q) : Math_min a b <= a /\ Math_min a b <= b.
Proof.
  unfold Math_min. destruct (Qle_bool a b) eqn:E.
  - apply Qle_bool_iff in E. lra.
  - assert (~ a <= b) by (rewrite <- Qle_bool_iff; congruence). lra.
Qed.

(** [Math.max(0, Math.min(100, x))] is in [0, 100] whatever [x] is. *)
Lemma clamp_range (x : Q) :
  0 <= Math_max 0 (Math_min 100 x) /\ Math_max 0 (Math_min 100 x) <= 100.
Proof.
  split; [apply Math_max_spec|].
  unfold Math_max. destruct (Qle_bool 0 (Math_min 100 x)).
  - apply Math_min_spec.
  - lra.
Qed.

Lemma lt_true (a b : Q) : lt a b = true <-> a < b.
Proof.
  unfold lt. rewrite negb_true_iff. split.
  - intros E. assert (~ b <= a) by (rewrite <- Qle_bool_iff; congruence). lra.
  - intros H. destruct (Qle_bool b a) eqn:E; [|reflexivity].
    apply Qle_bool_iff in E. lra.
Qed.

Lemma lt_false (a b : Q) : lt a b = false <-> b <= a.
Proof.
  unfold lt. rewrite negb_false_iff. apply Qle_bool_iff.
Qed.

Lemma length_slice_last {A} (n : nat) (arr : list A) :
  length (slice_last n arr) = Nat.min n (length arr).
Proof. unfold slice_last. rewrite length_skipn. lia. Qed.

Lemma last_elem_nil {A} : last_elem (@nil A) = None.
Proof. reflexivity. Qed.

Lemma last_elem_snoc {A} (arr : list A) (x : A) :
  last_elem (arr ++ [x]) = Some x.
Proof.
  unfold last_elem, index. rewrite length_app. simpl.
  destruct (Z.ltb_spec (Z.of_nat (length arr + 1) - 1) 0); [lia|].
  replace (Z.to_nat (Z.of_nat (length arr + 1) - 1)) with (length arr) by lia.
  rewrite nth_error_app2 by lia. now rewrite Nat.sub_diag.
Qed.

Lemma last_elem_some {A} (arr : list A) :
  arr <> [] -> exists front x, arr = front ++ [x] /\ last_elem arr = Some x.
Proof.
  intros H. destruct (exists_last H) as [front [x ->]].
  exists front, x. split; [reflexivity | apply last_elem_snoc].
Qed.

Lemma last_elem_In {A} (arr : list A) (x : A) :
  last_elem arr = Some x -> In x arr.
Proof.
  unfold last_elem, index.
  destruct (Z.of_nat (length arr) - 1 <? 0)%Z; [discriminate|].
  apply nth_error_In.
Qed.

End Primitives.

(* ------------------------------------------------------------------ *)
(** ** Which draw decides which field of a generated signal *)

Section SignalFields.

Variables (e : entropy) (now : Z) (chartData : list TradingChart.ChartDataPoint).

Lemma panel_confidence :
  confidence (run (SignalPanel.generateSampleSignal now) e)
  = Math_round ((e 2%nat * 40 + 60) * 10) / 10.
Proof. reflexivity. Qed.

Lemma chart_confidence :
  confidence (run (TradingChart.generateSampleSignal now chartData) e)
  = Math_round ((e 2%nat * 40 + 60) * 10) / 10.
Proof. reflexivity. Qed.

Lemma panel_signal_type :
  signal_type (run (SignalPanel.generateSampleSignal now) e)
  = index [buy; sell] (Math_floor (e 0%nat * 2)).
Proof. reflexivity. Qed.

Lemma chart_signal_type :
  signal_type (run (TradingChart.generateSampleSignal now chartData) e)
  = index [buy; sell] (Math_floor (e 0%nat * 2)).
Proof. reflexivity. Qed.

Lemma panel_rsi :
  ind_rsi (indicators (run (SignalPanel.generateSampleSignal now) e))
  = Math_round ((e 6%nat * 80 + 10) * 10) / 10.
Proof. reflexivity. Qed.

Lemma chart_rsi :
  ind_rsi (indicators (run (TradingChart.generateSampleSignal now chartData) e))
  = or_else (option_map TradingChart.rsi (last_elem chartData)) 65.
Proof. reflexivity. Qed.

End SignalFields.

Section Confidence.

(** [Math.round((r * 40 + 60) * 10) / 10] for a draw [r] in [0, 1). *)
Lemma confidence_formula_range (r : Q) :
  0 <= r -> r < 1 ->
  60 <= Math_round ((r * 40 + 60) * 10) / 10
  /\ Math_round ((r * 40 + 60) * 10) / 10 <= 100.
Proof.
  intros H0 H1.
  destruct (Math_round_between 600 1000 ((r * 40 + 60) * 10)) as [Hlo Hhi].
  - change (inject_Z 600) with 600. lra.
  - change (inject_Z 1000) with 1000. lra.
  - change (inject_Z 600) with 600 in Hlo.
    change (inject_Z 1000) with 1000 in Hhi.
    set (c := Math_round ((r * 40 + 60) * 10)) in *.
    by_constants. split; lra.
Qed.

End Confidence.

(* ------------------------------------------------------------------ *)
(** ** The chart series: what the loop and the updater build *)

Section ChartSeries.

Import TradingChart.

Lemma after_unit_draws (k : nat) (e : entropy) :
  unit_draws e -> unit_draws (after k e).
Proof. intros H n. apply H. Qed.

Lemma sampleLoop_points (now : Z) (n : nat) :
  forall i basePrice data e,
    run (sampleLoop now n i basePrice data) e
    = data ++ samplePoints now n i basePrice e.
Proof.
  induction n as [|n IH]; intros i basePrice data e.
  - unfold run. simpl. now rewrite app_nil_r.
  - change (run (sampleLoop now (S n) i basePrice data) e)
      with (run (sampleLoop now n (i + 1)%Z
                   (basePrice + (e 0%nat - 0.5) * 1000)
                   (data ++ [samplePoint now i basePrice e])) (after 5 e)).
    rewrite IH, <- app_assoc. reflexivity.
Qed.

Lemma generateSampleData_points (now : Z) (e : entropy) :
  run (generateSampleData now) e = samplePoints now 50 0%Z 43000 e.
Proof. unfold generateSampleData. now rewrite sampleLoop_points. Qed.

Lemma length_samplePoints (now : Z) (n : nat) :
  forall i basePrice e, length (samplePoints now n i basePrice e) = n.
Proof. induction n; intros; simpl; [reflexivity | now rewrite IHn]. Qed.

Lemma Forall_samplePoints (P : ChartDataPoint -> Prop) (now : Z) (n : nat) :
  (forall i basePrice e, P (samplePoint now i basePrice e)) ->
  forall i basePrice e, Forall P (samplePoints now n i basePrice e).
Proof.
  intros HP. induction n; intros; simpl; constructor; [apply HP | apply IHn].
Qed.

Lemma realTimeUpdate_some (now : Z) (prevData : list ChartDataPoint)
    (lastData : ChartDataPoint) (e : entropy) :
  last_elem prevData = Some lastData ->
  realTimeUpdate now prevData e
  = (Some (slice_last 50 (prevData ++ [tickPoint now lastData e])), after 5 e).
Proof.
  intros H. unfold realTimeUpdate, bind. rewrite H. reflexivity.
Qed.

Lemma realTimeUpdate_empty (now : Z) (e : entropy) :
  realTimeUpdate now [] e = (None, after 1 e).
Proof. reflexivity. Qed.

Lemma slice_last_snoc_nonempty {A} (n : nat) (arr : list A) (x : A) :
  slice_last (S n) (arr ++ [x]) <> [].
Proof.
  intros H. apply (f_equal (@length A)) in H.
  rewrite length_slice_last, length_app in H. cbn [length] in H. lia.
Qed.

Lemma Forall_slice_last {A} (P : A -> Prop) (n : nat) (arr : list A) :
  Forall P arr -> Forall P (slice_last n arr).
Proof.
  unfold slice_last. intros H.
  rewrite <- (firstn_skipn (length arr - n) arr) in H.
  now apply Forall_app in H.
Qed.

Lemma intervalCallback_some (now : Z) (st : ChartState)
    (lastData : ChartDataPoint) (e : entropy) :
  last_elem (chartData st) = Some lastData ->
  exists signal e',
    intervalCallback now st e
    = (Some {| chartData :=
                 slice_last 50 (chartData st ++ [tickPoint now lastData e]);
               currentSignal := signal |}, e').
Proof.
  intros H. unfold intervalCallback, bind.
  rewrite (realTimeUpdate_some _ _ _ _ H). cbn [fst snd ret].
  eexists. eexists. reflexivity.
Qed.

Lemma intervalCallback_empty (now : Z) (st : ChartState) (e : entropy) :
  chartData st = [] -> run (intervalCallback now st) e = None.
Proof.
  intros H. unfold run, intervalCallback, bind. rewrite H.
  rewrite realTimeUpdate_empty. reflexivity.
Qed.

Lemma ticks_S (now : Z) (n : nat) (st : ChartState)
    (lastData : ChartDataPoint) (e : entropy) :
  last_elem (chartData st) = Some lastData ->
  exists signal e',
    ticks now (S n) st e
    = ticks (now + 5000)%Z n
        {| chartData :=
             slice_last 50 (chartData st ++ [tickPoint now lastData e]);
           currentSignal := signal |} e'.
Proof.
  intros H.
  destruct (intervalCallback_some now st lastData e H) as [signal [e' Hc]].
  exists signal, e'. cbn [ticks]. unfold bind at 1. now rewrite Hc.
Qed.

(** From a non-empty series the updater never throws, and a property
    that holds of the series and of every appended point holds of the
    series after any number of ticks. *)
Lemma ticks_preserve (P : ChartDataPoint -> Prop) :
  (forall now lastData e, P lastData -> P (tickPoint now lastData e)) ->
  forall n now st e,
    chartData st <> [] -> Forall P (chartData st) ->
    exists st', run (ticks now n st) e = Some st'
                /\ chartData st' <> [] /\ Forall P (chartData st').
Proof.
  intros HP. induction n as [|n IH]; intros now st e Hne Hall.
  - exists st. repeat split; assumption.
  - destruct (last_elem_some _ Hne) as [front [lastData [Hd Hlast]]].
    destruct (ticks_S now n st lastData e Hlast) as [signal [e' Ht]].
    unfold run. rewrite Ht.
    apply IH; cbn [chartData].
    + apply slice_last_snoc_nonempty.
    + apply Forall_slice_last, Forall_app. split; [assumption|].
      constructor; [|constructor]. apply HP.
      rewrite Forall_forall in Hall. apply Hall.
      now apply last_elem_In.
Qed.

End ChartSeries.

(* ------------------------------------------------------------------ *)
(** ** RSI values and the length of the chart series *)

Section ChartInvariants.

Import TradingChart.

Lemma samplePoint_rsi (now i : Z) (basePrice : Q) (e : entropy) :
  rsi_in_range (samplePoint now i basePrice e).
Proof.
  unfold rsi_in_range, samplePoint. cbn [rsi].
  destruct (clamp_range (50 + (e 3%nat - 0.5) * 60)) as [Hlo Hhi].
  set (c := Math_max 0 (Math_min 100 (50 + (e 3%nat - 0.5) * 60))) in *.
  destruct (Math_round_between 0 1000 (c * 10)) as [Rlo Rhi].
  - change (inject_Z 0) with 0. lra.
  - change (inject_Z 1000) with 1000. lra.
  - change (inject_Z 0) with 0 in Rlo.
    change (inject_Z 1000) with 1000 in Rhi.
    set (r := Math_round (c * 10)) in *. by_constants. split; lra.
Qed.

Lemma tickPoint_rsi (now : Z) (lastData : ChartDataPoint) (e : entropy) :
  rsi_in_range (tickPoint now lastData e).
Proof. unfold rsi_in_range, tickPoint. cbn [rsi]. apply clamp_range. Qed.

Lemma panel_rsi_range (r : Q) :
  0 <= r -> r < 1 ->
  10 <= Math_round ((r * 80 + 10) * 10) / 10
  /\ Math_round ((r * 80 + 10) * 10) / 10 <= 90.
Proof.
  intros H0 H1.
  destruct (Math_round_between 100 900 ((r * 80 + 10) * 10)) as [Hlo Hhi].
  - change (inject_Z 100) with 100. lra.
  - change (inject_Z 900) with 900. lra.
  - change (inject_Z 100) with 100 in Hlo.
    change (inject_Z 900) with 900 in Hhi.
    set (c := Math_round ((r * 80 + 10) * 10)) in *.
    by_constants. split; lra.
Qed.

Lemma chart_signal_rsi_range (chartData : list ChartDataPoint) :
  Forall rsi_in_range chartData ->
  0 <= or_else (option_map rsi (last_elem chartData)) 65
  /\ or_else (option_map rsi (last_elem chartData)) 65 <= 100.
Proof.
  intros Hall. destruct (last_elem chartData) as [pt|] eqn:E; cbn.
  - apply last_elem_In in E. rewrite Forall_forall in Hall.
    destruct (Hall _ E) as [Hlo Hhi].
    destruct (Qeq_bool (rsi pt) 0); split; lra.
  - split; lra.
Qed.

Lemma ticks_length (n : nat) :
  forall now st e,
    chartData st <> [] -> (length (chartData st) <= 50)%nat ->
    exists st', run (ticks now n st) e = Some st'
                /\ length (chartData st')
                   = Nat.min 50 (length (chartData st) + n).
Proof.
  induction n as [|n IH]; intros now st e Hne Hlen.
  - exists st. split; [reflexivity | lia].
  - destruct (last_elem_some _ Hne) as [front [lastData [_ Hlast]]].
    destruct (ticks_S now n st lastData e Hlast) as [signal [e' Ht]].
    unfold run. rewrite Ht.
    set (data1 := slice_last 50 (chartData st ++ [tickPoint now lastData e])).
    assert (length data1 = Nat.min 50 (length (chartData st) + 1)) as Hl1.
    { unfold data1. rewrite length_slice_last, length_app. reflexivity. }
    destruct (IH (now + 5000)%Z
                {| chartData := data1; currentSignal := signal |} e')
      as [st' [Hrun Hl]]; cbn [chartData] in *.
    + apply slice_last_snoc_nonempty.
    + lia.
    + exists st'. split; [exact Hrun | lia].
Qed.

Lemma ticks_empty (now : Z) (n : nat) (st : ChartState) (e : entropy) :
  chartData st = [] -> run (ticks now (S n) st) e = None.
Proof.
  intros H. unfold run. cbn [ticks]. unfold bind at 1.
  pose proof (intervalCallback_empty now st e H) as Hc. unfold run in Hc.
  now rewrite Hc.
Qed.

End ChartInvariants.

(* ------------------------------------------------------------------ *)
(** ** Claims about the dashboard chart and the signal panel *)

(** C5: every RSI value the program produces lies in [0, 100]: at every
    point of the series [generateSampleData] builds, at every point of the
    series after any number of real-time updates (the updater never throws
    on a non-empty series), and in the indicator snapshot of every
    generated signal. *)
Theorem rsi_always_within_0_100 (e : entropy) (now : Z) :
  unit_draws e ->
  Forall rsi_in_range (run (TradingChart.generateSampleData now) e)
  /\ (forall n st,
        TradingChart.chartData st <> [] ->
        Forall rsi_in_range (TradingChart.chartData st) ->
        exists st', run (TradingChart.ticks now n st) e = Some st'
                    /\ Forall rsi_in_range (TradingChart.chartData st'))
  /\ (0 <= ind_rsi (indicators (run (SignalPanel.generateSampleSignal now) e))
      /\ ind_rsi (indicators (run (SignalPanel.generateSampleSignal now) e)) <= 100)
  /\ (forall chartData,
        Forall rsi_in_range chartData ->
        0 <= ind_rsi (indicators
                        (run (TradingChart.generateSampleSignal now chartData) e))
        /\ ind_rsi (indicators
                      (run (TradingChart.generateSampleSignal now chartData) e))
           <= 100).
Proof.
  intros He. repeat split.
  - rewrite generateSampleData_points.
    apply Forall_samplePoints. intros. apply samplePoint_rsi.
  - intros n st Hne Hall.
    destruct (ticks_preserve rsi_in_range
                (fun now' l e' _ => tickPoint_rsi now' l e')
                n now st e Hne Hall) as [st' [Hrun [_ Hall']]].
    now exists st'.
  - rewrite panel_rsi. destruct (He 6%nat) as [H0 H1].
    destruct (panel_rsi_range _ H0 H1). lra.
  - rewrite panel_rsi. destruct (He 6%nat) as [H0 H1].
    destruct (panel_rsi_range _ H0 H1). lra.
  - rewrite chart_rsi. now apply chart_signal_rsi_range.
  - rewrite chart_rsi. now apply chart_signal_rsi_range.
Qed.

Lemma rsi_always_within_0_100_witness :
  unit_draws steady
  /\ Forall rsi_in_range (run (TradingChart.generateSampleData 0) steady).
Proof.
  assert (H : unit_draws steady)
    by (intros n; split; [discriminate | reflexivity]).
  split; [exact H | exact (proj1 (rsi_always_within_0_100 steady 0 H))].
Defined.

(** C9: every signal the two generators produce has a confidence in
    [60, 100], so the [confidence < 60] guard of the execute button is
    never on for a generated signal and a click reaches the handler. *)
Theorem generated_confidence_within_60_100
    (e : entropy) (now : Z) (chartData : list TradingChart.ChartDataPoint) :
  unit_draws e ->
  let panel := run (SignalPanel.generateSampleSignal now) e in
  let chart := run (TradingChart.generateSampleSignal now chartData) e in
  (60 <= confidence panel /\ confidence panel <= 100)
  /\ (60 <= confidence chart /\ confidence chart <= 100)
  /\ SignalPanel.executeDisabled panel = false
  /\ SignalPanel.executeDisabled chart = false
  /\ SignalPanel.clickExecute (Some panel)
     = [SignalPanel.Log_executing_trade panel].
Proof.
  intros He panel chart.
  destruct (He 2%nat) as [H0 H1].
  pose proof (confidence_formula_range _ H0 H1) as Hc.
  assert (Hp : 60 <= confidence panel /\ confidence panel <= 100)
    by (unfold panel; rewrite panel_confidence; exact Hc).
  assert (Hk : 60 <= confidence chart /\ confidence chart <= 100)
    by (unfold chart; rewrite chart_confidence; exact Hc).
  assert (Hd : SignalPanel.executeDisabled panel = false)
    by (unfold SignalPanel.executeDisabled; apply lt_false; apply Hp).
  split; [exact Hp|]. split; [exact Hk|]. split; [exact Hd|]. split.
  - unfold SignalPanel.executeDisabled. apply lt_false. apply Hk.
  - unfold SignalPanel.clickExecute. rewrite Hd. reflexivity.
Qed.

Lemma generated_confidence_within_60_100_witness :
  unit_draws steady
  /\ SignalPanel.executeDisabled
       (run (SignalPanel.generateSampleSignal 0) steady) = false.
Proof.
  assert (H : unit_draws steady)
    by (intros n; split; [discriminate | reflexivity]).
  split; [exact H|].
  exact (proj1 (proj2 (proj2 (generated_confidence_within_60_100 steady 0 [] H)))).
Defined.

(** C10: the real-time update keeps the chart series at 50 points or
    fewer.  From a series of at most 50 points the updater returns the
    last 50 of the series with exactly one new point appended, so after
    [n] ticks the length is [min 50 (length + n)]; on the empty series the
    updater throws before it appends and no update takes place. *)
Theorem chart_series_never_exceeds_50
    (now : Z) (st : TradingChart.ChartState) (e : entropy) :
  (length (TradingChart.chartData st) <= 50)%nat ->
  (forall n st',
     run (TradingChart.ticks now n st) e = Some st' ->
     (length (TradingChart.chartData st') <= 50)%nat)
  /\ (TradingChart.chartData st <> [] ->
      (exists pt,
         run (TradingChart.realTimeUpdate now (TradingChart.chartData st)) e
         = Some (slice_last 50 (TradingChart.chartData st ++ [pt])))
      /\ forall n, exists st',
           run (TradingChart.ticks now n st) e = Some st'
           /\ length (TradingChart.chartData st')
              = Nat.min 50 (length (TradingChart.chartData st) + n))
  /\ (TradingChart.chartData st = [] ->
      run (TradingChart.realTimeUpdate now (TradingChart.chartData st)) e
      = None).
Proof.
  intros Hlen. split; [|split].
  - intros n st' Hrun.
    destruct (TradingChart.chartData st) as [|p rest] eqn:E.
    + destruct n as [|n].
      * inversion Hrun. subst st'. rewrite E. simpl. lia.
      * rewrite (ticks_empty _ _ _ _ E) in Hrun. discriminate.
    + assert (Hne : TradingChart.chartData st <> [])
        by (rewrite E; discriminate).
      rewrite <- E in Hlen.
      destruct (ticks_length n now st e Hne Hlen) as [st1 [Hrun' Hl]].
      rewrite Hrun in Hrun'. inversion Hrun'. subst st1. lia.
  - intros Hne. split.
    + destruct (last_elem_some _ Hne) as [front [lastData [_ Hlast]]].
      exists (tickPoint now lastData e).
      unfold run. now rewrite (realTimeUpdate_some _ _ _ _ Hlast).
    + intros n. now apply ticks_length.
  - intros ->. reflexivity.
Qed.

Lemma chart_series_never_exceeds_50_witness :
  let loaded :=
    run (TradingChart.initialLoad 0 (TradingChart.mkChart [] None)) steady in
  (length (TradingChart.chartData loaded) <= 50)%nat
  /\ exists st',
       run (TradingChart.ticks 0 3 loaded) steady = Some st'
       /\ (length (TradingChart.chartData st') <= 50)%nat.
Proof.
  intros loaded.
  assert (H : (length (TradingChart.chartData loaded) <= 50)%nat)
    by (vm_compute; lia).
  split; [exact H|].
  assert (Hne : TradingChart.chartData loaded <> [])
    by (vm_compute; discriminate).
  destruct (proj2 (proj1 (proj2
             (chart_series_never_exceeds_50 0 loaded steady H)) Hne) 3%nat)
    as [st' [Hrun Hl]].
  exists st'. split; [exact Hrun | lia].
Defined.

(* ------------------------------------------------------------------ *)
(** ** Claims about the backtest form *)

Section Backtest.

Import BacktestForm.

Lemma runBacktest_result (exchange pair : string) (params : BacktestParams)
    (e : entropy) :
  run (runBacktest exchange pair params) e
  = {| loading := false;
       result := Some {| success := true;
                         totalReturn := e 0%nat * 400 - 100;
                         totalReturnPercent := e 1%nat * 40 - 10;
                         totalTrades := inject_Z (Math_floor (e 2%nat * 50)) + 20;
                         winRate := e 3%nat * 40 + 50;
                         maxDrawdown := e 4%nat * -15;
                         sharpeRatio := e 5%nat * 2 + 0.5 |} |}.
Proof. reflexivity. Qed.

End Backtest.

(** C1, as stated, fails: two runs on the same input whose [Math.random()]
    draws differ give different results. *)
Lemma backtest_two_runs_differ :
  exists r1 r2,
    BacktestForm.result
      (run (BacktestForm.runBacktest "nobitex" "BTC/USDT" monthParams) lowest)
    = Some r1
    /\ BacktestForm.result
         (run (BacktestForm.runBacktest "nobitex" "BTC/USDT" monthParams) steady)
       = Some r2
    /\ BacktestForm.totalReturn r1 == -100
    /\ BacktestForm.totalReturn r2 == 100
    /\ ~ BacktestForm.totalReturn r1 == BacktestForm.totalReturn r2
    /\ r1 <> r2.
Proof.
  eexists. eexists.
  split; [rewrite runBacktest_result; reflexivity|].
  split; [rewrite runBacktest_result; reflexivity|].
  cbn [BacktestForm.totalReturn]. unfold lowest, steady.
  split; [reflexivity|]. split; [reflexivity|]. split.
  - intros H. vm_compute in H. discriminate.
  - intros H. apply (f_equal BacktestForm.totalReturn) in H.
    vm_compute in H. discriminate.
Qed.

(** C1, amended: the result of a backtest run is a function of the six
    values [Math.random()] returns during the run, and of nothing else:
    two runs whose six draws agree yield identical results, whatever the
    exchange, pair and parameters. *)
Theorem backtest_result_determined_by_draws
    (exchange pair exchange' pair' : string)
    (params params' : BacktestForm.BacktestParams) (e1 e2 : entropy) :
  (forall n, (n < 6)%nat -> e1 n = e2 n) ->
  run (BacktestForm.runBacktest exchange pair params) e1
  = run (BacktestForm.runBacktest exchange' pair' params') e2.
Proof.
  intros H. rewrite !runBacktest_result.
  rewrite (H 0%nat), (H 1%nat), (H 2%nat), (H 3%nat), (H 4%nat), (H 5%nat)
    by lia.
  reflexivity.
Qed.

Lemma backtest_result_determined_by_draws_witness :
  (forall n, (n < 6)%nat -> steady n = steady n)
  /\ run (BacktestForm.runBacktest "nobitex" "BTC/USDT" monthParams) steady
     = run (BacktestForm.runBacktest "wallex" "ETH/USDT" sameDayParams) steady.
Proof.
  assert (H : forall n, (n < 6)%nat -> steady n = steady n)
    by (intros n _; reflexivity).
  split; [exact H|].
  exact (backtest_result_determined_by_draws
           "nobitex" "BTC/USDT" "wallex" "ETH/USDT"
           monthParams sameDayParams steady steady H).
Defined.

(** C2, as stated, fails: with [startDate == endDate] the run completes
    and stores a successful result. *)
Lemma backtest_same_day_succeeds :
  BacktestForm.startDate sameDayParams = BacktestForm.endDate sameDayParams
  /\ Spec.startDate_not_before_endDate sameDayParams = true
  /\ exists r,
       BacktestForm.result
         (run (BacktestForm.runBacktest "nobitex" "BTC/USDT" sameDayParams) steady)
       = Some r
       /\ BacktestForm.success r = true.
Proof.
  split; [reflexivity|]. split; [reflexivity|].
  eexists. split; [rewrite runBacktest_result; reflexivity | reflexivity].
Qed.

(** C2, amended: the backtest operation makes no test of the date range:
    for every invocation, also one whose startDate is not before its
    endDate, it runs to the end, leaves [loading] off and stores a result
    whose [success] is true (never the failed result of the catch
    block). *)
Theorem backtest_accepts_every_range
    (exchange pair : string) (params : BacktestForm.BacktestParams)
    (e : entropy) :
  exists r,
    run (BacktestForm.runBacktest exchange pair params) e
    = {| BacktestForm.loading := false; BacktestForm.result := Some r |}
    /\ BacktestForm.success r = true
    /\ r <> BacktestForm.failedResult.
Proof.
  rewrite runBacktest_result. eexists.
  split; [reflexivity|]. split; [reflexivity|].
  intros H. apply (f_equal BacktestForm.success) in H. discriminate.
Qed.

(* ------------------------------------------------------------------ *)
(** ** Claims about signal generation and the execute button *)

Section Direction.

Lemma Math_floor_unique (z : Z) (x : Q) :
  inject_Z z <= x -> x < inject_Z z + 1 -> Math_floor x = z.
Proof.
  intros Hlo Hhi. unfold Math_floor.
  pose proof (Qfloor_le x) as Hle.
  pose proof (Qlt_floor x) as Hlt.
  assert (inject_Z (Qfloor x) < inject_Z (z + 1)) as H1.
  { rewrite inject_Z_plus. change (inject_Z 1) with 1.
    set (a := inject_Z (Qfloor x)) in *. set (b := inject_Z z) in *. lra. }
  assert (inject_Z z < inject_Z (Qfloor x + 1)) as H2.
  { set (a := inject_Z (Qfloor x + 1)) in *. set (b := inject_Z z) in *. lra. }
  rewrite <- Zlt_Qlt in H1, H2. lia.
Qed.

(** [signalTypes[Math.floor(r * 2)]] for a draw [r] in [0, 1). *)
Lemma direction_of_draw (r : Q) :
  0 <= r -> r < 1 ->
  (index [buy; sell] (Math_floor (r * 2)) = Some buy <-> r < 0.5)
  /\ (index [buy; sell] (Math_floor (r * 2)) = Some sell <-> 0.5 <= r).
Proof.
  intros H0 H1. destruct (Qlt_le_dec r 0.5) as [Hlt | Hge].
  - rewrite (Math_floor_unique 0 (r * 2)).
    + cbn. split; split; intros H; try discriminate; try reflexivity; lra.
    + change (inject_Z 0) with 0. lra.
    + change (inject_Z 0) with 0. lra.
  - rewrite (Math_floor_unique 1 (r * 2)).
    + cbn. split; split; intros H; try discriminate; try reflexivity; lra.
    + change (inject_Z 1) with 1. lra.
    + change (inject_Z 1) with 1. lra.
Qed.

Lemma maybeSignal_run (now : Z) (chartData : list TradingChart.ChartDataPoint)
    (e : entropy) :
  run (TradingChart.maybeSignal now chartData) e
  = if lt (e 0%nat) 0.3
    then Some (run (TradingChart.generateSampleSignal now chartData) (after 1 e))
    else None.
Proof.
  unfold run, TradingChart.maybeSignal, bind at 1. cbn [fst snd Math_random].
  destruct (lt (e 0%nat) 0.3); reflexivity.
Qed.

Lemma refresh_run (now : Z) (e : entropy) :
  run (SignalPanel.refresh now) e
  = Some (run (SignalPanel.generateSampleSignal now) e).
Proof. reflexivity. Qed.

End Direction.

(** C3, as stated, fails in both directions: on a bar without any
    crossover the chart's tick emits a [buy] signal, and on a bar with an
    up-cross it emits none. *)
Lemma signal_emitted_without_crossover :
  (~ Spec.up_cross above1 above2
   /\ ~ Spec.down_cross above1 above2
   /\ exists s,
        run (TradingChart.maybeSignal 0 [above1; above2]) lowest = Some s
        /\ signal_type s = Some buy)
  /\ (Spec.up_cross below1 crossed2
      /\ run (TradingChart.maybeSignal 0 [below1; crossed2]) steady = None).
Proof.
  split; [split; [|split] | split].
  - intros [H _]. cbn in H. lra.
  - intros [_ H]. cbn in H. lra.
  - eexists. split; reflexivity.
  - split; cbn; lra.
  - reflexivity.
Qed.

(** C3, amended: whether a signal is emitted, and its direction, are
    decided by [Math.random()] draws alone, whatever the EMA values of the
    series: the chart's tick emits a signal if and only if its draw is
    below 0.3, the panel's refresh always emits one, and the signal is
    [buy] if and only if the direction draw is below 0.5, [sell]
    otherwise. *)
Theorem signal_decided_by_draws
    (e : entropy) (now : Z) (chartData : list TradingChart.ChartDataPoint) :
  unit_draws e ->
  (e 0%nat < 0.3 ->
   exists s,
     run (TradingChart.maybeSignal now chartData) e = Some s
     /\ (signal_type s = Some buy <-> e 1%nat < 0.5)
     /\ (signal_type s = Some sell <-> 0.5 <= e 1%nat))
  /\ (0.3 <= e 0%nat ->
      run (TradingChart.maybeSignal now chartData) e = None)
  /\ (exists s,
        run (SignalPanel.refresh now) e = Some s
        /\ (signal_type s = Some buy <-> e 0%nat < 0.5)
        /\ (signal_type s = Some sell <-> 0.5 <= e 0%nat)).
Proof.
  intros He. split; [|split].
  - intros H. rewrite maybeSignal_run.
    apply lt_true in H. rewrite H. eexists. split; [reflexivity|].
    rewrite chart_signal_type. apply direction_of_draw; apply (He 1%nat).
  - intros H. rewrite maybeSignal_run.
    apply lt_false in H. now rewrite H.
  - rewrite refresh_run. eexists. split; [reflexivity|].
    rewrite panel_signal_type. apply direction_of_draw; apply (He 0%nat).
Qed.

Lemma signal_decided_by_draws_witness :
  unit_draws steady
  /\ run (TradingChart.maybeSignal 0 [below1; crossed2]) steady = None.
Proof.
  assert (H : unit_draws steady)
    by (intros n; split; [discriminate | reflexivity]).
  split; [exact H|].
  apply (proj1 (proj2 (signal_decided_by_draws steady 0 [below1; crossed2] H))).
  discriminate.
Defined.

(** C8, as stated, fails: a generated signal of confidence 65 is below the
    configured [minConfidence] of 70, and the execute button still runs
    the trade handler on it. *)
Lemma signal_below_minConfidence_executes :
  let s := run (SignalPanel.generateSampleSignal 0) modest in
  confidence s == 65
  /\ TradingParams.minConfidence TradingParams.DEFAULT_SETTINGS == 70
  /\ confidence s < TradingParams.minConfidence TradingParams.DEFAULT_SETTINGS
  /\ SignalPanel.clickExecute (Some s) = [SignalPanel.Log_executing_trade s].
Proof.
  cbv zeta. split; [reflexivity|]. split; [reflexivity|]. split; reflexivity.
Qed.

(** C8, amended: the gate of the execute button is the fixed threshold 60,
    not the configured [minConfidence]: for every signal whose confidence
    is strictly below 60 the button is disabled and a click takes no trade
    action. *)
Theorem signal_below_60_rejected (s : TradingSignal) :
  confidence s < 60 ->
  SignalPanel.executeDisabled s = true
  /\ SignalPanel.clickExecute (Some s) = [].
Proof.
  intros H. apply lt_true in H.
  unfold SignalPanel.clickExecute, SignalPanel.executeDisabled.
  rewrite H. split; reflexivity.
Qed.

Lemma signal_below_60_rejected_witness :
  confidence faintSignal < 60
  /\ SignalPanel.clickExecute (Some faintSignal) = [].
Proof.
  assert (H : confidence faintSignal < 60) by reflexivity.
  split; [exact H | exact (proj2 (signal_below_60_rejected faintSignal H))].
Defined.

(* ------------------------------------------------------------------ *)
(** ** Claims about the EMA values of the chart series *)

Section SampleEMA.

Import TradingChart.

Lemma samplePoint_ema (now i : Z) (basePrice : Q) (e : entropy) :
  unit_draws e -> ema_near_price (samplePoint now i basePrice e).
Proof.
  intros He. unfold ema_near_price, samplePoint. cbn [ema_short ema_long price].
  destruct (He 1%nat) as [S0 S1]. destruct (He 2%nat) as [L0 L1].
  set (b := basePrice + (e 0%nat - 0.5) * 1000).
  pose proof (Math_round_lower b). pose proof (Math_round_upper b).
  pose proof (Math_round_lower (b + (e 1%nat - 0.5) * 200)).
  pose proof (Math_round_upper (b + (e 1%nat - 0.5) * 200)).
  pose proof (Math_round_lower (b + (e 2%nat - 0.5) * 400)).
  pose proof (Math_round_upper (b + (e 2%nat - 0.5) * 400)).
  set (p := Math_round b) in *.
  set (s := Math_round (b + (e 1%nat - 0.5) * 200)) in *.
  set (l := Math_round (b + (e 2%nat - 0.5) * 400)) in *.
  repeat split; lra.
Qed.

Lemma Forall_samplePoints_draws (P : ChartDataPoint -> Prop) (now : Z) (n : nat) :
  (forall i basePrice e, unit_draws e -> P (samplePoint now i basePrice e)) ->
  forall i basePrice e,
    unit_draws e -> Forall P (samplePoints now n i basePrice e).
Proof.
  intros HP. induction n; intros i basePrice e He; simpl; constructor.
  - now apply HP.
  - apply IHn. now apply after_unit_draws.
Qed.

End SampleEMA.

(** C4, as stated, fails: over the 50 bars of a sample series the short
    EMA has 50 values, not the 50 - 12 + 1 of a period of 12; it has a
    value at index 0; and that first value is not the simple average of
    the first 12 closes. *)
Lemma ema_series_has_no_warm_up :
  let data := run (TradingChart.generateSampleData 0) dip in
  let closes := map TradingChart.price data in
  let emas := map TradingChart.ema_short data in
  length closes = 50%nat
  /\ length emas = 50%nat
  /\ length emas <> Spec.output_length (length closes) 12
  /\ Spec.simple_average (firstn 12 closes) == 43000
  /\ exists v,
       nth_error emas 0 = Some v
       /\ v == 42900
       /\ ~ v == Spec.simple_average (firstn 12 closes).
Proof.
  cbv zeta. split; [reflexivity|]. split; [reflexivity|].
  split; [vm_compute; discriminate|]. split; [vm_compute; reflexivity|].
  eexists. split; [vm_compute; reflexivity|].
  split; [reflexivity|]. intros H. vm_compute in H. discriminate.
Qed.

(** C4, amended: the sample series has no period and no warm-up: over its
    n = 50 bars it carries exactly n short and n long EMA values, one for
    every bar from index 0 onward, and each is the rounding of that bar's
    own base price plus bounded noise, so it stays within 101 (short) and
    201 (long) of the bar's price; the first short value is the rounding
    of the first base price plus the noise of the second draw. *)
Theorem ema_series_one_value_for_every_bar (e : entropy) (now : Z) :
  unit_draws e ->
  let data := run (TradingChart.generateSampleData now) e in
  length data = 50%nat
  /\ length (map TradingChart.ema_short data) = length data
  /\ length (map TradingChart.ema_long data) = length data
  /\ (forall i, (i < 50)%nat ->
        exists v, nth_error (map TradingChart.ema_short data) i = Some v)
  /\ Forall ema_near_price data
  /\ nth_error (map TradingChart.ema_short data) 0
     = Some (Math_round (43000 + (e 0%nat - 0.5) * 1000
                         + (e 1%nat - 0.5) * 200)).
Proof.
  intros He data.
  assert (Hlen : length data = 50%nat)
    by (unfold data; rewrite generateSampleData_points;
        apply length_samplePoints).
  split; [exact Hlen|]. rewrite !length_map.
  split; [reflexivity|]. split; [reflexivity|]. split; [|split].
  - intros i Hi.
    destruct (nth_error (map TradingChart.ema_short data) i) as [v|] eqn:E.
    + now exists v.
    + apply nth_error_None in E. rewrite length_map in E. lia.
  - unfold data. rewrite generateSampleData_points.
    apply Forall_samplePoints_draws; [|exact He].
    intros. now apply samplePoint_ema.
  - unfold data. rewrite generateSampleData_points. reflexivity.
Qed.

Lemma ema_series_one_value_for_every_bar_witness :
  unit_draws steady
  /\ length (run (TradingChart.generateSampleData 0) steady) = 50%nat.
Proof.
  assert (H : unit_draws steady)
    by (intros n; split; [discriminate | reflexivity]).
  split; [exact H|].
  exact (proj1 (ema_series_one_value_for_every_bar steady 0 H)).
Defined.

(* ------------------------------------------------------------------ *)
(** ** Claims about the results chart *)

Section Performance.

Import ResultsChart.

Lemma performanceLoop_rows (now : Z) (n : nat) :
  forall i balance0 data e,
    run (performanceLoop now n i balance0 data) e
    = data ++ perfRows now n i balance0 e.
Proof.
  induction n as [|n IH]; intros i balance0 data e.
  - unfold run. simpl. now rewrite app_nil_r.
  - change (run (performanceLoop now (S n) i balance0 data) e)
      with (run (performanceLoop now n (i + 1)%Z
                   (balance0 + (e 0%nat - 0.45) * 50)
                   (data ++ [perfRow now i balance0 e])) (after 2 e)).
    rewrite IH, <- app_assoc. reflexivity.
Qed.

Lemma generatePerformanceData_rows (now : Z) (e : entropy) :
  run (generatePerformanceData now) e = perfRows now 30 0%Z 1000 e.
Proof. unfold generatePerformanceData. now rewrite performanceLoop_rows. Qed.

Lemma perfRows_nth (now : Z) (n : nat) :
  forall i balance0 e k row,
    nth_error (perfRows now n i balance0 e) k = Some row ->
    let b := unroundedBalance balance0
               (firstn (S k) (perfRows now n i balance0 e)) in
    balance row = Math_round (b * 100) / 100
    /\ drawdown row = drawdownOf b.
Proof.
  induction n as [|n IH]; intros i balance0 e k row H.
  - destruct k; discriminate.
  - destruct k as [|k].
    + inversion H. subst row. cbn. split; reflexivity.
    + cbn [perfRows nth_error] in H. apply IH in H.
      cbn [perfRows firstn unroundedBalance fold_left].
      exact H.
Qed.

Lemma drawdownOf_nonpositive (b : Q) : drawdownOf b <= 0.
Proof.
  unfold drawdownOf. destruct (lt b 1000) eqn:E; [|lra].
  apply lt_true in E. by_constants. lra.
Qed.

Lemma fold_min_lower (rest : list Q) :
  forall x, fold_left Math_min rest x <= x
            /\ forall y, In y rest -> fold_left Math_min rest x <= y.
Proof.
  induction rest as [|z rest IH]; intros x; cbn [fold_left].
  - split; [lra | intros y []].
  - destruct (IH (Math_min x z)) as [H1 H2].
    destruct (Math_min_spec x z) as [Hx Hz]. split; [lra|].
    intros y [<- | Hy]; [lra | now apply H2].
Qed.

Lemma fold_min_attained (rest : list Q) :
  forall x, In (fold_left Math_min rest x) (x :: rest).
Proof.
  induction rest as [|z rest IH]; intros x; cbn [fold_left].
  - now left.
  - destruct (IH (Math_min x z)) as [H | H].
    + unfold Math_min in H at 1. destruct (Qle_bool x z).
      * left. exact H.
      * right. left. exact H.
    + right. right. exact H.
Qed.

Lemma countProfitable_filter (ledger : list Trade) :
  Spec.countProfitable ledger = winningTradesOf ledger.
Proof.
  unfold winningTradesOf.
  induction ledger as [|t rest IH]; [reflexivity|].
  cbn [Spec.countProfitable filter].
  destruct (Qlt_le_dec 0 (profit t)) as [H | H].
  - apply lt_true in H. rewrite H. cbn [length]. now rewrite IH.
  - apply lt_false in H. rewrite H. exact IH.
Qed.

End Performance.

(** C6, as stated, fails: on a curve that rises to 1020 and falls back to
    1005 the drawdown from the running peak is -25/17 percent, while the
    component's maxDrawdown is 0. *)
Lemma maxDrawdown_ignores_running_peak :
  let data := run (ResultsChart.generatePerformanceData 0) swing in
  exists fromCode fromPeak,
    ResultsChart.maxDrawdownOf data = Num fromCode
    /\ Spec.maxDrawdownPercent (map ResultsChart.balance data)
       = Num fromPeak
    /\ Forall2 Qeq (map ResultsChart.balance (firstn 3 data))
         [1020; 1005; 1005]
    /\ fromCode == 0
    /\ fromPeak == - (25 # 17)
    /\ ~ fromCode == fromPeak.
Proof.
  cbv zeta. eexists. eexists.
  split; [reflexivity|]. split; [reflexivity|].
  split; [repeat constructor; vm_compute; reflexivity|].
  split; [vm_compute; reflexivity|]. split; [vm_compute; reflexivity|].
  intros H. vm_compute in H. discriminate.
Qed.

(** C6, amended: maxDrawdown equals the minimum over the rows of the
    row's drawdown, and the drawdown of row i is measured against the
    fixed initial balance 1000: it is (b - 1000) / 1000 * 100 when the
    unrounded running balance b of that row is below 1000 and 0 otherwise
    (the row's displayed balance being b rounded to cents); no running
    peak enters. *)
Theorem maxDrawdown_measured_from_initial_balance (e : entropy) (now : Z) :
  let data := run (ResultsChart.generatePerformanceData now) e in
  exists m,
    ResultsChart.maxDrawdownOf data = Num m
    /\ (forall row, In row data -> m <= ResultsChart.drawdown row)
    /\ (exists row, In row data /\ m = ResultsChart.drawdown row)
    /\ m <= 0
    /\ forall i row,
         nth_error data i = Some row ->
         let b := unroundedBalance 1000 (firstn (S i) data) in
         ResultsChart.balance row = Math_round (b * 100) / 100
         /\ ResultsChart.drawdown row
            = if lt b 1000 then ((b - 1000) / 1000) * 100 else 0.
Proof.
  intros data.
  assert (Hd : data = perfRows now 30 0%Z 1000 e)
    by apply generatePerformanceData_rows.
  destruct data as [|row0 rest] eqn:E; [discriminate Hd|].
  unfold ResultsChart.maxDrawdownOf. cbn [map Math_min_all].
  exists (fold_left Math_min (map ResultsChart.drawdown rest)
            (ResultsChart.drawdown row0)).
  destruct (fold_min_lower (map ResultsChart.drawdown rest)
              (ResultsChart.drawdown row0)) as [Hx Hrest].
  pose proof (fold_min_attained (map ResultsChart.drawdown rest)
                (ResultsChart.drawdown row0)) as Hin.
  assert (H0 : ResultsChart.drawdown row0 <= 0).
  { assert (Hn : nth_error (perfRows now 30 0%Z 1000 e) 0 = Some row0)
      by (rewrite <- Hd; reflexivity).
    apply perfRows_nth in Hn. destruct Hn as [_ ->].
    apply drawdownOf_nonpositive. }
  split; [reflexivity|]. split; [|split; [|split]].
  - intros row [<- | Hr]; [exact Hx|].
    apply Hrest. now apply in_map.
  - destruct Hin as [Hin | Hin].
    + exists row0. split; [now left | now symmetry].
    + apply in_map_iff in Hin. destruct Hin as [row [Hrow Hr]].
      exists row. split; [now right | now symmetry].
  - lra.
  - intros i row Hn. rewrite Hd in Hn |- *.
    apply perfRows_nth in Hn. exact Hn.
Qed.

(** C7, as stated, fails: on the sample ledger winRate is 100/3, a
    hundred times the ratio 2/6 of profitable trades, and on an empty
    ledger the expression is 0/0 * 100 = NaN, not 0. *)
Lemma winRate_is_percentage_without_guard :
  (exists w,
     ResultsChart.winRate = Num w
     /\ w == 100 # 3
     /\ Spec.winRate ResultsChart.SAMPLE_TRADES == 1 # 3
     /\ ~ w == Spec.winRate ResultsChart.SAMPLE_TRADES)
  /\ ResultsChart.winRateOf [] = NaN
  /\ Spec.winRate [] == 0.
Proof.
  split; [|split; reflexivity].
  eexists. split; [reflexivity|]. split; [reflexivity|].
  split; [reflexivity|]. intros H. vm_compute in H. discriminate.
Qed.

(** C7, amended: for every non-empty trade ledger, winRate equals the
    count of trades with profit > 0 divided by the total count of trades,
    times 100 (a percentage). *)
Theorem winRate_percentage_of_profitable (ledger : list ResultsChart.Trade) :
  ledger <> [] ->
  exists w,
    ResultsChart.winRateOf ledger = Num w
    /\ w == inject_Z (Z.of_nat (Spec.countProfitable ledger))
            / inject_Z (Z.of_nat (length ledger)) * 100
    /\ w == Spec.winRate ledger * 100.
Proof.
  intros Hne. destruct ledger as [|t rest]; [contradiction|].
  unfold ResultsChart.winRateOf, ResultsChart.totalTradesOf.
  rewrite <- countProfitable_filter. cbn [length div_lengths times].
  eexists. split; [reflexivity|]. split; reflexivity.
Qed.

Lemma winRate_percentage_of_profitable_witness :
  ResultsChart.SAMPLE_TRADES <> []
  /\ exists w, ResultsChart.winRateOf ResultsChart.SAMPLE_TRADES = Num w
               /\ w == 100 # 3.
Proof.
  assert (H : ResultsChart.SAMPLE_TRADES <> []) by discriminate.
  split; [exact H|].
  destruct (winRate_percentage_of_profitable ResultsChart.SAMPLE_TRADES H)
    as [w [Hw [Hq _]]].
  exists w. split; [exact Hw|]. rewrite Hq. reflexivity.
Defined.

(* ------------------------------------------------------------------ *)
(** ** Further properties: the signal panel *)

Section PanelFacts.

Lemma Math_floor_range (lo hi : Z) (x : Q) :
  inject_Z lo <= x -> x < inject_Z hi -> (lo <= Math_floor x < hi)%Z.
Proof.
  intros Hlo Hhi. unfold Math_floor.
  pose proof (Qfloor_le x) as Hle.
  pose proof (Qlt_floor x) as Hlt.
  assert (inject_Z (Qfloor x) < inject_Z hi) as H1.
  { set (a := inject_Z (Qfloor x)) in *. set (b := inject_Z hi) in *. lra. }
  assert (inject_Z lo < inject_Z (Qfloor x + 1)) as H2.
  { set (a := inject_Z (Qfloor x + 1)) in *. set (b := inject_Z lo) in *. lra. }
  rewrite <- Zlt_Qlt in H1, H2. lia.
Qed.



Lemma chart_strength (e : entropy) (now : Z)
    (chartData : list TradingChart.ChartDataPoint) :
  strength (run (TradingChart.generateSampleSignal now chartData) e)
  = index [weak; moderate; strong] (Math_floor (e 1%nat * 3)).
Proof. reflexivity. Qed.

End PanelFacts.









(** X5: the text colour and the badge colour of a signal each encode
    exactly its direction and its strength word: two signals get the same
    colour if and only if they agree on being a buy and on the strength
    word (an undefined strength counting as weak, an undefined direction
    as sell). *)
Theorem signal_colours_encode_direction_and_strength (s1 s2 : TradingSignal) :
  (SignalPanel.getSignalColor s1 = SignalPanel.getSignalColor s2
   <-> is_buy (signal_type s1) = is_buy (signal_type s2)
       /\ word_of (strength s1) = word_of (strength s2))
  /\ (SignalPanel.getSignalBadgeColor s1 = SignalPanel.getSignalBadgeColor s2
      <-> is_buy (signal_type s1) = is_buy (signal_type s2)
          /\ word_of (strength s1) = word_of (strength s2)).
Proof.
  unfold SignalPanel.getSignalColor, SignalPanel.getSignalBadgeColor.
  destruct (signal_type s1) as [[|]|], (signal_type s2) as [[|]|];
    destruct (strength s1) as [[| |]|], (strength s2) as [[| |]|];
    cbn; repeat split; intros; try reflexivity; try discriminate;
    try (match goal with H : _ /\ _ |- _ => destruct H; discriminate end).
Qed.

(** X6: a click on the execute button logs a trade if and only if there
    is a current signal whose confidence is at least 60; it then logs
    exactly that signal, once, whatever its direction and strength. *)
Theorem execute_click_logs_iff_confidence_at_least_60
    (currentSignal : option TradingSignal) :
  (forall s, currentSignal = Some s -> 60 <= confidence s ->
             SignalPanel.clickExecute currentSignal
             = [SignalPanel.Log_executing_trade s])
  /\ (SignalPanel.clickExecute currentSignal <> [] ->
      exists s, currentSignal = Some s /\ 60 <= confidence s
                /\ SignalPanel.clickExecute currentSignal
                   = [SignalPanel.Log_executing_trade s]).
Proof.
  split.
  - intros s -> H. unfold SignalPanel.clickExecute, SignalPanel.executeDisabled.
    apply lt_false in H. now rewrite H.
  - destruct currentSignal as [s|]; [|intros H; now contradiction H].
    unfold SignalPanel.clickExecute, SignalPanel.executeDisabled.
    destruct (lt (confidence s) 60) eqn:E; [intros H; now contradiction H|].
    intros _. exists s. apply lt_false in E. repeat split; assumption.
Qed.

(* ------------------------------------------------------------------ *)
(** ** Further properties: the chart series *)

Section ChartFacts.

Import TradingChart.

(** How far the base price can have moved after [n] iterations. *)
Fixpoint drift (n : nat) : Q :=
  match n with
  | O => 0
  | S n' => drift n' + 500
  end.

(** The ranges of the values of a freshly generated bar. *)
Definition fresh_bar (pt : ChartDataPoint) : Prop :=
  (18000 <= price pt /\ price pt <= 68000)
  /\ (20 <= rsi pt /\ rsi pt <= 80)
  /\ (0 <= volume pt /\ volume pt <= 100000).

Lemma drift_nonneg (n : nat) : 0 <= drift n.
Proof. induction n; cbn [drift]; lra. Qed.

Lemma samplePoints_price (now : Z) (lo hi : Z) (n : nat) :
  forall i basePrice e,
    unit_draws e ->
    inject_Z lo <= basePrice - drift n ->
    basePrice + drift n <= inject_Z hi ->
    Forall (fun pt => inject_Z lo <= price pt /\ price pt <= inject_Z hi)
      (samplePoints now n i basePrice e).
Proof.
  induction n as [|n IH]; intros i basePrice e He Hlo Hhi; cbn [samplePoints];
    constructor.
  - cbn [drift] in Hlo, Hhi. pose proof (drift_nonneg n).
    destruct (He 0%nat) as [A0 A1].
    unfold samplePoint. cbn [price]. apply Math_round_between.
    + set (a := inject_Z lo) in *. lra.
    + set (a := inject_Z hi) in *. lra.
  - cbn [drift] in Hlo, Hhi. destruct (He 0%nat) as [A0 A1].
    apply IH; [now apply after_unit_draws | |].
    + set (a := inject_Z lo) in *. lra.
    + set (a := inject_Z hi) in *. lra.
Qed.

Lemma clamp_inside (x : Q) :
  0 <= x -> x < 100 -> Math_max 0 (Math_min 100 x) = x.
Proof.
  intros H0 H1. unfold Math_min.
  destruct (Qle_bool 100 x) eqn:E; [apply Qle_bool_iff in E; lra|].
  unfold Math_max. destruct (Qle_bool 0 x) eqn:F; [reflexivity|].
  assert (~ 0 <= x) by (rewrite <- Qle_bool_iff; congruence). contradiction.
Qed.

Lemma samplePoint_rsi_volume (now i : Z) (basePrice : Q) (e : entropy) :
  unit_draws e ->
  let pt := samplePoint now i basePrice e in
  (20 <= rsi pt /\ rsi pt <= 80) /\ (0 <= volume pt /\ volume pt <= 100000).
Proof.
  intros He. destruct (He 3%nat) as [R0 R1]. destruct (He 4%nat) as [V0 V1].
  unfold samplePoint. cbn [rsi volume]. split.
  - rewrite clamp_inside by lra.
    destruct (Math_round_between 200 800 ((50 + (e 3%nat - 0.5) * 60) * 10))
      as [Hlo Hhi];
      [change (inject_Z 200) with 200; lra
      |change (inject_Z 800) with 800; lra|].
    change (inject_Z 200) with 200 in Hlo. change (inject_Z 800) with 800 in Hhi.
    set (c := Math_round ((50 + (e 3%nat - 0.5) * 60) * 10)) in *.
    by_constants. split; lra.
  - destruct (Math_round_between 0 100000 (e 4%nat * 100000)) as [Hlo Hhi];
      [change (inject_Z 0) with 0; lra
      |change (inject_Z 100000) with 100000; lra|].
    split; assumption.
Qed.

Lemma Forall_and {A} (P R : A -> Prop) (l : list A) :
  Forall P l -> Forall R l -> Forall (fun x => P x /\ R x) l.
Proof.
  intros HP HR. induction HP; inversion HR; subst; constructor; auto.
Qed.

Lemma sample_series_fresh (now : Z) (e : entropy) :
  unit_draws e -> Forall fresh_bar (run (generateSampleData now) e).
Proof.
  intros He. rewrite generateSampleData_points.
  pose proof (samplePoints_price now 18000 68000 50 0%Z 43000 e He) as Hp.
  assert (Hd : drift 50 == 25000) by reflexivity.
  change (inject_Z 18000) with 18000 in Hp.
  change (inject_Z 68000) with 68000 in Hp.
  specialize (Hp ltac:(lra) ltac:(lra)).
  pose proof (Forall_samplePoints_draws
                (fun pt => (20 <= rsi pt /\ rsi pt <= 80)
                           /\ (0 <= volume pt /\ volume pt <= 100000))
                now 50 (fun i b e' H => samplePoint_rsi_volume now i b e' H)
                0%Z 43000 e He) as Hr.
  pose proof (Forall_and _ _ _ Hp Hr) as H.
  eapply Forall_impl; [|exact H]. cbv beta. unfold fresh_bar. tauto.
Qed.

Lemma sample_series_ema_near (now : Z) (e : entropy) :
  unit_draws e -> Forall ema_near_price (run (generateSampleData now) e).
Proof.
  intros He. rewrite generateSampleData_points.
  apply Forall_samplePoints_draws; [|exact He].
  intros. now apply samplePoint_ema.
Qed.

Lemma or_else_nonzero (x d : Q) : ~ x == 0 -> or_else (Some x) d = x.
Proof.
  intros H. cbn. destruct (Qeq_bool x 0) eqn:E; [|reflexivity].
  apply Qeq_bool_eq in E. contradiction.
Qed.

Lemma slice_last_snoc {A} (n : nat) (arr : list A) (x : A) :
  slice_last (S n) (arr ++ [x]) = skipn (length arr - n) arr ++ [x].
Proof.
  unfold slice_last. rewrite length_app. cbn [length].
  replace (length arr + 1 - S n)%nat with (length arr - n)%nat by lia.
  rewrite skipn_app.
  replace (length arr - n - length arr)%nat with 0%nat by lia.
  reflexivity.
Qed.

(** [Math.max(0, Math.min(100, x))] stays as near to a value in range as
    [x] is. *)
Lemma clamp_near (y x : Q) :
  0 <= y -> y <= 100 -> y - 5 <= x -> x <= y + 5 ->
  y - 5 <= Math_max 0 (Math_min 100 x) /\ Math_max 0 (Math_min 100 x) <= y + 5.
Proof.
  intros H0 H1 Hlo Hhi. unfold Math_min.
  destruct (Qle_bool 100 x) eqn:E.
  - apply Qle_bool_iff in E. change (Math_max 0 100) with 100. split; lra.
  - assert (~ 100 <= x) by (rewrite <- Qle_bool_iff; congruence).
    unfold Math_max. destruct (Qle_bool 0 x) eqn:F.
    + split; lra.
    + assert (~ 0 <= x) by (rewrite <- Qle_bool_iff; congruence).
      split; lra.
Qed.

End ChartFacts.

(** X7: every bar of a freshly generated sample series has a price
    between 18000 and 68000, an RSI between 20 and 80 (the clamp to
    [0, 100] never acts there) and a volume between 0 and 100000. *)
Theorem sample_series_value_ranges (e : entropy) (now : Z) :
  unit_draws e ->
  Forall fresh_bar (run (TradingChart.generateSampleData now) e).
Proof. apply sample_series_fresh. Qed.

Lemma sample_series_value_ranges_witness :
  unit_draws steady
  /\ Forall fresh_bar (run (TradingChart.generateSampleData 0) steady).
Proof.
  assert (H : unit_draws steady)
    by (intros n; split; [discriminate | reflexivity]).
  split; [exact H | exact (sample_series_value_ranges steady 0 H)].
Defined.

(** X8: the signal the initial load sets right after the mount is
    generated from the empty series the effect closed over, so whatever
    series was loaded it shows the fixed price 43000, short EMA 43200,
    long EMA 42800 and RSI 65; the loaded series has 50 bars. *)
Theorem first_signal_ignores_loaded_series (e : entropy) (now : Z)
    (previous : option TradingChart.SignalData) :
  let loaded :=
    run (TradingChart.initialLoad now (TradingChart.mkChart [] previous)) e in
  length (TradingChart.chartData loaded) = 50%nat
  /\ exists s,
       TradingChart.currentSignal loaded = Some s
       /\ signal_price s = 43000
       /\ indicators s = mkIndicators 43200 42800 65.
Proof.
  intros loaded. split.
  - change (TradingChart.chartData loaded)
      with (run (TradingChart.generateSampleData now) e).
    rewrite generateSampleData_points. apply length_samplePoints.
  - eexists. split; [reflexivity|]. split; reflexivity.
Qed.

(** X9: a signal generated over a freshly loaded series carries exactly
    the price, the two EMAs and the RSI of the series' latest bar: none of
    the fallback values is used, because none of these is 0 on a fresh
    bar. *)
Theorem signal_over_fresh_series_shows_latest_bar
    (e0 e : entropy) (now0 now : Z) :
  unit_draws e0 ->
  let data := run (TradingChart.generateSampleData now0) e0 in
  exists lastData,
    last_elem data = Some lastData
    /\ let s := run (TradingChart.generateSampleSignal now data) e in
       signal_price s = TradingChart.price lastData
       /\ ind_ema_short (indicators s) = TradingChart.ema_short lastData
       /\ ind_ema_long (indicators s) = TradingChart.ema_long lastData
       /\ ind_rsi (indicators s) = TradingChart.rsi lastData.
Proof.
  intros He data.
  assert (Hne : data <> []).
  { intros H. apply (f_equal (@length _)) in H. unfold data in H.
    rewrite generateSampleData_points, length_samplePoints in H.
    discriminate. }
  destruct (last_elem_some data Hne) as [front [lastData [_ Hlast]]].
  exists lastData. split; [exact Hlast|].
  pose proof (sample_series_fresh now0 e0 He) as Hf.
  pose proof (sample_series_ema_near now0 e0 He) as Hn.
  fold data in Hf, Hn.
  rewrite Forall_forall in Hf, Hn.
  pose proof (last_elem_In _ _ Hlast) as Hin.
  destruct (Hf _ Hin) as [[P0 P1] [[R0 R1] _]].
  destruct (Hn _ Hin) as [[S0 S1] [L0 L1]].
  cbv zeta.
  change (signal_price (run (TradingChart.generateSampleSignal now data) e))
    with (or_else (option_map TradingChart.price (last_elem data)) 43000).
  change (indicators (run (TradingChart.generateSampleSignal now data) e))
    with {| ind_ema_short :=
              or_else (option_map TradingChart.ema_short (last_elem data)) 43200;
            ind_ema_long :=
              or_else (option_map TradingChart.ema_long (last_elem data)) 42800;
            ind_rsi :=
              or_else (option_map TradingChart.rsi (last_elem data)) 65 |}.
  rewrite Hlast. cbn [option_map ind_ema_short ind_ema_long ind_rsi].
  repeat split; apply or_else_nonzero; lra.
Qed.

Lemma signal_over_fresh_series_shows_latest_bar_witness :
  unit_draws steady
  /\ exists lastData,
       last_elem (run (TradingChart.generateSampleData 0) steady) = Some lastData
       /\ signal_price
            (run (TradingChart.generateSampleSignal 5000
                    (run (TradingChart.generateSampleData 0) steady)) lowest)
          = TradingChart.price lastData.
Proof.
  assert (H : unit_draws steady)
    by (intros n; split; [discriminate | reflexivity]).
  split; [exact H|].
  destruct (signal_over_fresh_series_shows_latest_bar steady lowest 0 5000 H)
    as [lastData [Hlast [Hp _]]].
  exists lastData. split; [exact Hlast | exact Hp].
Defined.

(** X10: the real-time update is a sliding window: on a non-empty series
    of fewer than 50 bars it returns the series with one bar appended, on a
    series of exactly 50 bars it drops the oldest bar and appends one; the
    bars it keeps are unchanged and in order. *)
Theorem real_time_update_slides_window
    (now : Z) (prevData : list TradingChart.ChartDataPoint) (e : entropy) :
  prevData <> [] ->
  exists pt,
    (length prevData < 50 ->
     run (TradingChart.realTimeUpdate now prevData) e = Some (prevData ++ [pt]))%nat
    /\ (length prevData = 50 ->
        run (TradingChart.realTimeUpdate now prevData) e
        = Some (tl prevData ++ [pt]))%nat.
Proof.
  intros Hne.
  destruct (last_elem_some prevData Hne) as [front [lastData [_ Hlast]]].
  exists (tickPoint now lastData e).
  unfold run. rewrite (realTimeUpdate_some _ _ _ _ Hlast). cbn [fst].
  rewrite slice_last_snoc. split; intros Hl.
  - replace (length prevData - 49)%nat with 0%nat by lia. reflexivity.
  - replace (length prevData - 49)%nat with 1%nat by lia.
    destruct prevData; reflexivity.
Qed.

Lemma real_time_update_slides_window_witness :
  [above1; above2] <> []
  /\ exists pt,
       run (TradingChart.realTimeUpdate 10000 [above1; above2]) steady
       = Some ([above1; above2] ++ [pt]).
Proof.
  assert (H : [above1; above2] <> []) by discriminate.
  split; [exact H|].
  destruct (real_time_update_slides_window 10000 [above1; above2] steady H)
    as [pt [Hshort _]].
  exists pt. apply Hshort. cbn. lia.
Defined.

(** X11: the bar a real-time update appends stays near the latest bar:
    its price is within 250.5 of the latest price, its short and long EMA
    within 101 and 201 of its own price, its timestamp is the time of the
    tick, and, when the latest RSI is in [0, 100], its RSI is within 5 of
    it. *)
Theorem real_time_update_step_bounds
    (now : Z) (prevData : list TradingChart.ChartDataPoint)
    (lastData : TradingChart.ChartDataPoint) (e : entropy) :
  unit_draws e ->
  last_elem prevData = Some lastData ->
  exists data' pt,
    run (TradingChart.realTimeUpdate now prevData) e = Some data'
    /\ last_elem data' = Some pt
    /\ TradingChart.time pt = now
    /\ (TradingChart.price lastData - 250.5 <= TradingChart.price pt
        /\ TradingChart.price pt <= TradingChart.price lastData + 250.5)
    /\ ema_near_price pt
    /\ (rsi_in_range lastData ->
        TradingChart.rsi lastData - 5 <= TradingChart.rsi pt
        /\ TradingChart.rsi pt <= TradingChart.rsi lastData + 5).
Proof.
  intros He Hlast.
  exists (slice_last 50 (prevData ++ [tickPoint now lastData e])),
         (tickPoint now lastData e).
  unfold run. rewrite (realTimeUpdate_some _ _ _ _ Hlast). cbn [fst].
  split; [reflexivity|]. split; [rewrite slice_last_snoc; apply last_elem_snoc|].
  split; [reflexivity|].
  destruct (He 0%nat) as [A0 A1]. destruct (He 1%nat) as [B0 B1].
  destruct (He 2%nat) as [C0 C1]. destruct (He 3%nat) as [D0 D1].
  unfold ema_near_price, rsi_in_range, tickPoint.
  cbn [TradingChart.price TradingChart.ema_short TradingChart.ema_long
       TradingChart.rsi].
  set (p := TradingChart.price lastData) in *.
  set (b := p + (e 0%nat - 0.5) * 500).
  pose proof (Math_round_lower b). pose proof (Math_round_upper b).
  pose proof (Math_round_lower (b + (e 1%nat - 0.5) * 200)).
  pose proof (Math_round_upper (b + (e 1%nat - 0.5) * 200)).
  pose proof (Math_round_lower (b + (e 2%nat - 0.5) * 400)).
  pose proof (Math_round_upper (b + (e 2%nat - 0.5) * 400)).
  set (rp := Math_round b) in *.
  set (rs := Math_round (b + (e 1%nat - 0.5) * 200)) in *.
  set (rl := Math_round (b + (e 2%nat - 0.5) * 400)) in *.
  assert (Hb : p - 250 <= b /\ b < p + 250) by (unfold b; split; lra).
  split; [split; lra|]. split; [repeat split; lra|].
  intros [R0 R1]. apply clamp_near; lra.
Qed.

Lemma real_time_update_step_bounds_witness :
  unit_draws steady
  /\ last_elem [above1; above2] = Some above2
  /\ exists data' pt,
       run (TradingChart.realTimeUpdate 10000 [above1; above2]) steady
       = Some data'
       /\ last_elem data' = Some pt
       /\ TradingChart.time pt = 10000%Z.
Proof.
  assert (H : unit_draws steady)
    by (intros n; split; [discriminate | reflexivity]).
  assert (Hl : last_elem [above1; above2] = Some above2) by reflexivity.
  split; [exact H|]. split; [exact Hl|].
  destruct (real_time_update_step_bounds 10000 [above1; above2] above2 steady H Hl)
    as [data' [pt [Hrun [Hlast [Ht _]]]]].
  exists data', pt. repeat split; assumption.
Defined.

(** X12: once the initial load has run, the chart holds exactly 50 bars
    for ever: whatever the state before the load and whatever the draws,
    no later tick throws and after any number of ticks the series still
    has 50 bars. *)
Theorem loaded_chart_keeps_50_bars
    (e0 e : entropy) (now0 now : Z) (before : TradingChart.ChartState)
    (n : nat) :
  let loaded := run (TradingChart.initialLoad now0 before) e0 in
  exists st',
    run (TradingChart.ticks now n loaded) e = Some st'
    /\ length (TradingChart.chartData st') = 50%nat.
Proof.
  intros loaded.
  assert (Hl : length (TradingChart.chartData loaded) = 50%nat).
  { change (TradingChart.chartData loaded)
      with (run (TradingChart.generateSampleData now0) e0).
    rewrite generateSampleData_points. apply length_samplePoints. }
  assert (Hne : TradingChart.chartData loaded <> []).
  { intros H. rewrite H in Hl. discriminate. }
  destruct (ticks_length n now loaded e Hne ltac:(lia)) as [st' [Hrun Hlen]].
  exists st'. split; [exact Hrun | lia].
Qed.

(* ------------------------------------------------------------------ *)
(** ** Further properties: the backtest form and the results chart *)



Section PerformanceFacts.

Import ResultsChart.

(** How far the balance can have fallen and risen after [n] days. *)
Fixpoint lossDrift (n : nat) : Q :=
  match n with
  | O => 0
  | S n' => lossDrift n' + 22.5
  end.

Fixpoint gainDrift (n : nat) : Q :=
  match n with
  | O => 0
  | S n' => gainDrift n' + 27.5
  end.

(** The ranges of the fields of a generated performance row. *)
Definition performance_row_ranges (row : PerformanceData) : Prop :=
  (-22.5 <= profitLoss row /\ profitLoss row < 27.5)
  /\ (exists k : Z, trades row = inject_Z k /\ (0 <= k <= 3)%Z)
  /\ (325 <= balance row /\ balance row <= 1825)
  /\ (-67.5 <= drawdown row /\ drawdown row <= 0).

Lemma lossDrift_nonneg (n : nat) : 0 <= lossDrift n.
Proof. induction n; cbn [lossDrift]; lra. Qed.

Lemma gainDrift_nonneg (n : nat) : 0 <= gainDrift n.
Proof. induction n; cbn [gainDrift]; lra. Qed.

Lemma drawdownOf_lower (b : Q) : 325 <= b -> -67.5 <= drawdownOf b.
Proof.
  intros H. unfold drawdownOf. destruct (lt b 1000); [|lra].
  by_constants. lra.
Qed.

Lemma perfRows_ranges (now : Z) (n : nat) :
  forall i balance0 e,
    unit_draws e ->
    325 <= balance0 - lossDrift n ->
    balance0 + gainDrift n <= 1825 ->
    Forall performance_row_ranges (perfRows now n i balance0 e).
Proof.
  induction n as [|n IH]; intros i balance0 e He Hlo Hhi; cbn [perfRows];
    constructor.
  - cbn [lossDrift gainDrift] in Hlo, Hhi.
    pose proof (lossDrift_nonneg n). pose proof (gainDrift_nonneg n).
    destruct (He 0%nat) as [A0 A1]. destruct (He 1%nat) as [B0 B1].
    unfold performance_row_ranges, perfRow.
    cbn [profitLoss trades balance drawdown].
    split; [split; lra|]. split; [|split].
    + eexists. split; [reflexivity|].
      destruct (Math_floor_range 0 4 (e 1%nat * 4)) as [Hl Hh];
        [change (inject_Z 0) with 0; lra
        |change (inject_Z 4) with 4; lra|].
      lia.
    + destruct (Math_round_between 32500 182500
                  ((balance0 + (e 0%nat - 0.45) * 50) * 100)) as [Hl Hh];
        [change (inject_Z 32500) with 32500; lra
        |change (inject_Z 182500) with 182500; lra|].
      change (inject_Z 32500) with 32500 in Hl.
      change (inject_Z 182500) with 182500 in Hh.
      set (c := Math_round ((balance0 + (e 0%nat - 0.45) * 50) * 100)) in *.
      by_constants. split; lra.
    + split; [apply drawdownOf_lower; lra | apply drawdownOf_nonpositive].
  - cbn [lossDrift gainDrift] in Hlo, Hhi. destruct (He 0%nat) as [A0 A1].
    apply IH; [now apply after_unit_draws | lra | lra].
Qed.

Lemma performance_rows_ranges (now : Z) (e : entropy) :
  unit_draws e ->
  Forall performance_row_ranges (run (generatePerformanceData now) e).
Proof.
  intros He. rewrite generatePerformanceData_rows.
  assert (Hl : lossDrift 30 == 675) by reflexivity.
  assert (Hg : gainDrift 30 == 825) by reflexivity.
  apply perfRows_ranges; [exact He | lra | lra].
Qed.

Lemma length_perfRows (now : Z) (n : nat) :
  forall i balance0 e, length (perfRows now n i balance0 e) = n.
Proof. induction n; intros; cbn [perfRows length]; [reflexivity | now rewrite IHn]. Qed.

(** The minimum [Math.min] finds over the drawdowns of a non-empty list
    of rows. *)
Lemma maxDrawdownOf_minimum (row0 : PerformanceData) (rest : list PerformanceData) :
  exists m,
    maxDrawdownOf (row0 :: rest) = Num m
    /\ (forall row, In row (row0 :: rest) -> m <= drawdown row)
    /\ (exists row, In row (row0 :: rest) /\ m = drawdown row).
Proof.
  unfold maxDrawdownOf. cbn [map Math_min_all].
  exists (fold_left Math_min (map drawdown rest) (drawdown row0)).
  destruct (fold_min_lower (map drawdown rest) (drawdown row0)) as [Hx Hrest].
  pose proof (fold_min_attained (map drawdown rest) (drawdown row0)) as Hin.
  split; [reflexivity|]. split.
  - intros row [<- | Hr]; [exact Hx|]. apply Hrest. now apply in_map.
  - destruct Hin as [Hin | Hin].
    + exists row0. split; [now left | now symmetry].
    + apply in_map_iff in Hin. destruct Hin as [row [Hrow Hr]].
      exists row. split; [now right | now symmetry].
Qed.

Lemma drawdownOf_zero_iff (b : Q) : drawdownOf b == 0 <-> 1000 <= b.
Proof.
  unfold drawdownOf. destruct (lt b 1000) eqn:E.
  - apply lt_true in E. by_constants. split; intros H; lra.
  - apply lt_false in E. split; intros; [assumption | reflexivity].
Qed.

End PerformanceFacts.

(** X14: the performance data has 30 rows, and in every row the daily
    return is in [-22.5, 27.5), the trade count is an integer from 0 to 3,
    the displayed balance is between 325 and 1825 and the drawdown between
    -67.5 and 0. *)
Theorem performance_rows_within_ranges (e : entropy) (now : Z) :
  unit_draws e ->
  length (run (ResultsChart.generatePerformanceData now) e) = 30%nat
  /\ Forall performance_row_ranges
       (run (ResultsChart.generatePerformanceData now) e).
Proof.
  intros He. split.
  - rewrite generatePerformanceData_rows. apply length_perfRows.
  - now apply performance_rows_ranges.
Qed.

Lemma performance_rows_within_ranges_witness :
  unit_draws steady
  /\ length (run (ResultsChart.generatePerformanceData 0) steady) = 30%nat.
Proof.
  assert (H : unit_draws steady)
    by (intros n; split; [discriminate | reflexivity]).
  split; [exact H | exact (proj1 (performance_rows_within_ranges steady 0 H))].
Defined.

(** X15: the maxDrawdown of generated performance data is a number
    between -67.5 and 0, and it is 0 exactly when on no day the running
    balance (the initial 1000 plus the daily returns so far) is below
    1000. *)
Theorem maxDrawdown_zero_iff_never_below_1000 (e : entropy) (now : Z) :
  unit_draws e ->
  let data := run (ResultsChart.generatePerformanceData now) e in
  exists m,
    ResultsChart.maxDrawdownOf data = Num m
    /\ (-67.5 <= m /\ m <= 0)
    /\ (m == 0
        <-> forall i, (i < 30)%nat ->
                      1000 <= unroundedBalance 1000 (firstn (S i) data)).
Proof.
  intros He data.
  assert (Hd : data = perfRows now 30 0%Z 1000 e)
    by apply generatePerformanceData_rows.
  pose proof (performance_rows_ranges now e He) as Hr. fold data in Hr.
  rewrite Forall_forall in Hr.
  assert (Hlen : length data = 30%nat) by (rewrite Hd; apply length_perfRows).
  assert (Hnth : forall i row, nth_error data i = Some row ->
                   ResultsChart.drawdown row
                   = ResultsChart.drawdownOf
                       (unroundedBalance 1000 (firstn (S i) data))).
  { intros i row Hn. rewrite Hd in Hn |- *.
    apply perfRows_nth in Hn. apply Hn. }
  destruct data as [|row0 rest] eqn:E; [discriminate Hlen|].
  destruct (maxDrawdownOf_minimum row0 rest) as [m [Hm [Hlow [rowm [Hin Heq]]]]].
  exists m. split; [exact Hm|].
  destruct (Hr _ Hin) as [_ [_ [_ [D0 D1]]]]. rewrite <- Heq in D0, D1.
  split; [split; assumption|]. split.
  - intros Hz i Hi.
    destruct (nth_error (row0 :: rest) i) as [row|] eqn:Hn;
      [|apply nth_error_None in Hn; lia].
    pose proof (Hlow row (nth_error_In _ _ Hn)) as Hle.
    destruct (Hr row (nth_error_In _ _ Hn)) as [_ [_ [_ [_ Hup]]]].
    apply drawdownOf_zero_iff. rewrite <- (Hnth _ _ Hn). lra.
  - intros Hall.
    destruct (In_nth_error _ _ Hin) as [i Hn].
    assert (Hi : (i < 30)%nat).
    { rewrite <- Hlen. apply nth_error_Some. rewrite Hn. discriminate. }
    rewrite Heq, (Hnth _ _ Hn). apply drawdownOf_zero_iff. now apply Hall.
Qed.

Lemma maxDrawdown_zero_iff_never_below_1000_witness :
  unit_draws steady
  /\ exists m,
       ResultsChart.maxDrawdownOf
         (run (ResultsChart.generatePerformanceData 0) steady) = Num m
       /\ m <= 0.
Proof.
  assert (H : unit_draws steady)
    by (intros n; split; [discriminate | reflexivity]).
  split; [exact H|].
  destruct (maxDrawdown_zero_iff_never_below_1000 steady 0 H)
    as [m [Hm [[_ Hup] _]]].
  exists m. split; [exact Hm | exact Hup].
Defined.

(** X16: the total return of generated performance data is the last
    row's displayed balance minus 1000, a value between -675 and 825, and
    the total return percent is a tenth of it; on no rows at all the
    total return is 0. *)
Theorem totalReturn_is_last_balance_minus_1000 (e : entropy) (now : Z) :
  unit_draws e ->
  let data := run (ResultsChart.generatePerformanceData now) e in
  ResultsChart.totalReturnOf [] = 0
  /\ exists lastRow,
       last_elem data = Some lastRow
       /\ ResultsChart.totalReturnOf data == ResultsChart.balance lastRow - 1000
       /\ (-675 <= ResultsChart.totalReturnOf data
           /\ ResultsChart.totalReturnOf data <= 825)
       /\ ResultsChart.totalReturnPercentOf data
          == ResultsChart.totalReturnOf data / 10.
Proof.
  intros He. cbv zeta.
  assert (Hne : run (ResultsChart.generatePerformanceData now) e <> []).
  { rewrite generatePerformanceData_rows. cbn [perfRows]. discriminate. }
  pose proof (performance_rows_ranges now e He) as Hr.
  revert Hne Hr.
  generalize (run (ResultsChart.generatePerformanceData now) e).
  intros data Hne Hr.
  split; [reflexivity|].
  destruct (last_elem_some data Hne) as [front [lastRow [_ Hlast]]].
  exists lastRow. split; [exact Hlast|].
  rewrite Forall_forall in Hr.
  destruct (Hr _ (last_elem_In _ _ Hlast)) as [_ [_ [[B0 B1] _]]].
  clear Hr.
  assert (Ht : ResultsChart.totalReturnOf data
               == ResultsChart.balance lastRow - 1000).
  { unfold ResultsChart.totalReturnOf. rewrite Hlast. cbn [option_map or_else].
    destruct (Qeq_bool (ResultsChart.balance lastRow - 1000) 0) eqn:E;
      [|reflexivity].
    apply Qeq_bool_eq in E. now rewrite E. }
  split; [exact Ht|]. split.
  - split; lra.
  - unfold ResultsChart.totalReturnPercentOf.
    generalize (ResultsChart.totalReturnOf data). intros t. field.
Qed.

Lemma totalReturn_is_last_balance_minus_1000_witness :
  unit_draws steady
  /\ ResultsChart.totalReturnOf [] = 0.
Proof.
  assert (H : unit_draws steady)
    by (intros n; split; [discriminate | reflexivity]).
  split; [exact H|].
  exact (proj1 (totalReturn_is_last_balance_minus_1000 steady 0 H)).
Defined.

Section WinRateFacts.

Import ResultsChart.

Lemma filter_all_iff {A} (f : A -> bool) (l : list A) :
  length (filter f l) = length l <-> Forall (fun x => f x = true) l.
Proof.
  induction l as [|a l IH]; cbn [filter length].
  - split; [constructor | reflexivity].
  - pose proof (filter_length_le f l) as Hle.
    destruct (f a) eqn:E; cbn [length]; split; intros H.
    + constructor; [exact E | apply IH; lia].
    + inversion H; subst. f_equal. now apply IH.
    + lia.
    + inversion H; subst. congruence.
Qed.

Lemma filter_none_iff {A} (f : A -> bool) (l : list A) :
  length (filter f l) = 0%nat <-> Forall (fun x => f x = false) l.
Proof.
  induction l as [|a l IH]; cbn [filter length].
  - split; [constructor | reflexivity].
  - destruct (f a) eqn:E; cbn [length]; split; intros H.
    + discriminate.
    + inversion H; subst. congruence.
    + constructor; [exact E | now apply IH].
    + inversion H; subst. now apply IH.
Qed.

(** A ratio of two counts, the first at most the second. *)
Lemma ratio_percent (a b : nat) :
  (a <= b)%nat -> (0 < b)%nat ->
  let w := inject_Z (Z.of_nat a) / inject_Z (Z.of_nat b) * 100 in
  (0 <= w /\ w <= 100) /\ (w == 100 <-> a = b) /\ (w == 0 <-> a = 0%nat).
Proof.
  intros Hab Hb.
  assert (Hx : 0 <= inject_Z (Z.of_nat a))
    by (change 0 with (inject_Z 0); rewrite <- Zle_Qle; lia).
  assert (Hxy : inject_Z (Z.of_nat a) <= inject_Z (Z.of_nat b))
    by (rewrite <- Zle_Qle; lia).
  assert (Hy : 0 < inject_Z (Z.of_nat b))
    by (change 0 with (inject_Z 0); rewrite <- Zlt_Qlt; lia).
  assert (Ha : inject_Z (Z.of_nat a) == inject_Z (Z.of_nat b) <-> a = b)
    by (rewrite inject_Z_injective; lia).
  assert (Hz : inject_Z (Z.of_nat a) == 0 <-> a = 0%nat)
    by (change 0 with (inject_Z 0); rewrite inject_Z_injective; lia).
  revert Hx Hxy Hy Ha Hz.
  generalize (inject_Z (Z.of_nat a)), (inject_Z (Z.of_nat b)).
  intros x y Hx Hxy Hy Ha Hz. cbv zeta.
  assert (Hq : y * (x / y) == x) by (apply Qmult_div_r; lra).
  assert (H0 : 0 <= x / y) by (apply Qle_shift_div_l; lra).
  assert (H1 : x / y <= 1) by (apply Qle_shift_div_r; lra).
  revert Hq H0 H1. generalize (x / y). intros q Hq H0 H1.
  split; [split; lra|]. split.
  - rewrite <- Ha. split; intros H.
    + assert (q == 1) as Hq1 by lra. rewrite Hq1 in Hq. lra.
    + rewrite <- H in Hq.
      assert (x * q == x * 1) as Hm by (rewrite Hq; ring).
      destruct (Qeq_dec x 0) as [Hx0 | Hx0]; [lra|].
      apply Qmult_inj_l in Hm; [lra | exact Hx0].
  - rewrite <- Hz. split; intros H.
    + assert (q == 0) as Hq0 by lra. rewrite Hq0 in Hq. lra.
    + rewrite H in Hq.
      assert (y * q == y * 0) as Hm by (rewrite Hq; ring).
      apply Qmult_inj_l in Hm; lra.
Qed.

End WinRateFacts.

(** X17: for every non-empty trade ledger the win rate is a number
    between 0 and 100; it is 100 exactly when every trade has a positive
    profit and 0 exactly when none has. *)
Theorem winRate_between_0_and_100 (ledger : list ResultsChart.Trade) :
  ledger <> [] ->
  exists w,
    ResultsChart.winRateOf ledger = Num w
    /\ (0 <= w /\ w <= 100)
    /\ (w == 100 <-> Forall (fun t => 0 < ResultsChart.profit t) ledger)
    /\ (w == 0 <-> Forall (fun t => ResultsChart.profit t <= 0) ledger).
Proof.
  intros Hne. destruct ledger as [|t rest] eqn:E; [contradiction|].
  rewrite <- E. assert (Hlen : (0 < length ledger)%nat) by (rewrite E; cbn; lia).
  clear E Hne.
  pose proof (filter_length_le (fun t => lt 0 (ResultsChart.profit t)) ledger)
    as Hle.
  destruct (ratio_percent _ _ Hle Hlen) as [Hr [H100 H0]].
  unfold ResultsChart.winRateOf, ResultsChart.winningTradesOf,
    ResultsChart.totalTradesOf.
  destruct (length ledger) as [|n] eqn:El; [lia|]. cbn [div_lengths times].
  eexists. split; [reflexivity|]. split; [exact Hr|]. split.
  - rewrite H100, <- El, filter_all_iff. clear.
    induction ledger; split; intros H; inversion H; subst; constructor;
      try (apply lt_true; assumption); try (apply IHledger; assumption).
  - rewrite H0, filter_none_iff. clear.
    induction ledger; split; intros H; inversion H; subst; constructor;
      try (apply lt_false; assumption); try (apply IHledger; assumption).
Qed.

Lemma winRate_between_0_and_100_witness :
  ResultsChart.SAMPLE_TRADES <> []
  /\ exists w,
       ResultsChart.winRateOf ResultsChart.SAMPLE_TRADES = Num w /\ w <= 100.
Proof.
  assert (H : ResultsChart.SAMPLE_TRADES <> []) by discriminate.
  split; [exact H|].
  destruct (winRate_between_0_and_100 ResultsChart.SAMPLE_TRADES H)
    as [w [Hw [[_ Hup] _]]].
  exists w. split; [exact Hw | exact Hup].
Defined.

(* ------------------------------------------------------------------ *)
(** ** Further properties: the API settings and the exchange selector *)

Section APIConfigFacts.

Import APIConfig.

(** What holds of every saved configuration. *)
Definition saved_complete (st : State) : Prop :=
  forall exchange c,
    configs st exchange = Some c ->
    apiKey c <> ""%string /\ secret c <> ""%string
    /\ isConnected c = true /\ lastTest c <> None.

Definition filled (c : ExchangeConfig) : Prop :=
  apiKey c <> ""%string /\ secret c <> ""%string.

Lemma empty_false (s : string) : empty s = false <-> s <> ""%string.
Proof. unfold empty. apply String.eqb_neq. Qed.

Lemma filled_test (c : ExchangeConfig) :
  empty (apiKey c) || empty (secret c) = false <-> filled c.
Proof.
  unfold filled. rewrite orb_false_iff, !empty_false. tauto.
Qed.

Lemma handleSaveConfig_filled (userId selectedExchange : string) (now : Z)
    (st : State) :
  filled (currentConfig st) ->
  handleSaveConfig userId selectedExchange now st
  = ({| configs :=
          withConfig (configs st) selectedExchange
            {| apiKey := apiKey (currentConfig st);
               secret := secret (currentConfig st);
               isConnected := true;
               lastTest := Some now |};
        currentConfig :=
          {| apiKey := apiKey (currentConfig st);
             secret := secret (currentConfig st);
             isConnected := true;
             lastTest := Some now |};
        loading := false;
        testResult := Some (mkTestResult true Saved_and_tested) |},
     [Log_saving selectedExchange userId
        (apiKey (currentConfig st)) (secret (currentConfig st))]).
Proof.
  intros H. apply filled_test in H. unfold handleSaveConfig. now rewrite H.
Qed.

Lemma handleSaveConfig_unfilled (userId selectedExchange : string) (now : Z)
    (st : State) :
  ~ filled (currentConfig st) ->
  handleSaveConfig userId selectedExchange now st
  = ({| configs := configs st;
        currentConfig := currentConfig st;
        loading := loading st;
        testResult := Some (mkTestResult false Fill_both_fields) |}, []).
Proof.
  intros H. unfold handleSaveConfig.
  destruct (empty (apiKey (currentConfig st)) || empty (secret (currentConfig st)))
    eqn:E; [reflexivity|].
  apply filled_test in E. contradiction.
Qed.

Lemma filled_dec (c : ExchangeConfig) : filled c \/ ~ filled c.
Proof.
  unfold filled.
  destruct (String.eqb_spec (apiKey c) ""), (String.eqb_spec (secret c) "");
    tauto.
Qed.

Lemma handleTestConnection_configs (selectedExchange : string) (now : Z)
    (st : State) (e : entropy) :
  configs (fst (fst (handleTestConnection selectedExchange now st e)))
  = configs st.
Proof.
  unfold handleTestConnection.
  destruct (empty (apiKey (currentConfig st)) || empty (secret (currentConfig st)));
    [reflexivity|].
  unfold bind. cbn [fst snd Math_random].
  destruct (lt 0.3 (e 0%nat)); reflexivity.
Qed.

Lemma act_keeps_saved_complete (userId selectedExchange : string) (now : Z)
    (a : Action) (st : State) (e : entropy) :
  saved_complete st ->
  saved_complete (fst (fst (act userId selectedExchange now a st e))).
Proof.
  intros Hinv. destruct a as [field value | | | exchange]; cbn [act].
  - exact Hinv.
  - unfold ret. cbn [fst].
    destruct (filled_dec (currentConfig st)) as [Hf | Hf].
    + rewrite (handleSaveConfig_filled _ _ _ _ Hf). cbn [fst].
      intros k c. cbn [configs]. unfold withConfig.
      destruct (String.eqb k selectedExchange).
      * intros H. inversion H; subst c. cbn.
        destruct Hf as [Hk Hs]. repeat split; try assumption; discriminate.
      * apply Hinv.
    + rewrite (handleSaveConfig_unfilled _ _ _ _ Hf). exact Hinv.
  - intros k c. rewrite handleTestConnection_configs. apply Hinv.
  - exact Hinv.
Qed.

Lemma session_cons (userId selectedExchange : string) (now : Z) (a : Action)
    (rest : list (Z * Action)) (st : State) (e : entropy) :
  exists e',
    fst (fst (session userId selectedExchange ((now, a) :: rest) st e))
    = fst (fst (session userId selectedExchange rest
                  (fst (fst (act userId selectedExchange now a st e))) e'))
    /\ snd (fst (session userId selectedExchange ((now, a) :: rest) st e))
       = snd (fst (act userId selectedExchange now a st e))
         ++ snd (fst (session userId selectedExchange rest
                        (fst (fst (act userId selectedExchange now a st e))) e')).
Proof.
  exists (snd (act userId selectedExchange now a st e)).
  split; reflexivity.
Qed.

Lemma session_keeps_saved_complete (userId selectedExchange : string)
    (actions : list (Z * Action)) :
  forall st e,
    saved_complete st ->
    saved_complete (fst (fst (session userId selectedExchange actions st e))).
Proof.
  induction actions as [|[now a] rest IH]; intros st e Hinv.
  - exact Hinv.
  - destruct (session_cons userId selectedExchange now a rest st e)
      as [e' [Hs _]].
    rewrite Hs. apply IH. now apply act_keeps_saved_complete.
Qed.

(** An action other than a click on save. *)
Definition not_save (a : Action) : Prop :=
  match a with Click_save => False | _ => True end.

Lemma act_not_save_configs (userId selectedExchange : string) (now : Z)
    (a : Action) (st : State) (e : entropy) :
  not_save a ->
  configs (fst (fst (act userId selectedExchange now a st e))) = configs st.
Proof.
  destruct a; cbn [act not_save]; intros H;
    [reflexivity | contradiction | apply handleTestConnection_configs
    | reflexivity].
Qed.

Lemma session_not_save_configs (userId selectedExchange : string)
    (actions : list (Z * Action)) :
  forall st e,
    Forall (fun ta => not_save (snd ta)) actions ->
    configs (fst (fst (session userId selectedExchange actions st e)))
    = configs st.
Proof.
  induction actions as [|[now a] rest IH]; intros st e Hall.
  - reflexivity.
  - inversion Hall as [|x l Ha Hrest]; subst.
    destruct (session_cons userId selectedExchange now a rest st e)
      as [e' [Hs _]].
    rewrite Hs, (IH _ _ Hrest). now apply act_not_save_configs.
Qed.

End APIConfigFacts.

(** X18: whatever the user types, clicks and selects, every saved API
    configuration is complete: in the state after any sequence of actions
    from the initial state, each exchange that has a saved configuration
    has a non-empty API key, a non-empty secret, the connected flag set
    and a time of last test. *)
Theorem saved_configs_always_complete
    (userId selectedExchange : string) (actions : list (Z * APIConfig.Action))
    (e : entropy) :
  saved_complete
    (fst (run (APIConfig.session userId selectedExchange actions
                 APIConfig.initialState) e)).
Proof.
  unfold run. apply session_keeps_saved_complete.
  intros k c H. discriminate H.
Qed.

(** X19: saving filled-in credentials and then selecting the same exchange
    brings back exactly what was saved (key, secret, connected, time of
    the save), the saved configurations of the other exchanges are not
    touched, and the console receives the key and the secret in clear. *)
Theorem save_then_select_round_trip
    (userId selectedExchange : string) (now : Z) (st : APIConfig.State) :
  APIConfig.apiKey (APIConfig.currentConfig st) <> ""%string ->
  APIConfig.secret (APIConfig.currentConfig st) <> ""%string ->
  let saved := APIConfig.handleSaveConfig userId selectedExchange now st in
  let stored :=
    {| APIConfig.apiKey := APIConfig.apiKey (APIConfig.currentConfig st);
       APIConfig.secret := APIConfig.secret (APIConfig.currentConfig st);
       APIConfig.isConnected := true;
       APIConfig.lastTest := Some now |} in
  APIConfig.currentConfig
    (APIConfig.handleExchangeSelect selectedExchange (fst saved)) = stored
  /\ APIConfig.shownConnected (fst saved) selectedExchange = true
  /\ (forall other,
        other <> selectedExchange ->
        APIConfig.configs (fst saved) other = APIConfig.configs st other)
  /\ snd saved
     = [APIConfig.Log_saving selectedExchange userId
          (APIConfig.apiKey (APIConfig.currentConfig st))
          (APIConfig.secret (APIConfig.currentConfig st))].
Proof.
  intros Hk Hs saved stored.
  assert (Hf : filled (APIConfig.currentConfig st)) by (split; assumption).
  unfold saved. rewrite (handleSaveConfig_filled _ _ _ _ Hf). cbn [fst snd].
  unfold APIConfig.handleExchangeSelect, APIConfig.shownConnected,
    APIConfig.withConfig.
  cbn [APIConfig.configs APIConfig.currentConfig].
  rewrite String.eqb_refl. cbn [APIConfig.isConnected].
  split; [reflexivity|]. split; [reflexivity|]. split; [|reflexivity].
  intros other Hne. apply String.eqb_neq in Hne. now rewrite Hne.
Qed.

Lemma save_then_select_round_trip_witness :
  let st :=
    APIConfig.handleInputChange APIConfig.field_secret "s3cret"
      (APIConfig.handleInputChange APIConfig.field_apiKey "key-1"
         APIConfig.initialState) in
  APIConfig.apiKey (APIConfig.currentConfig st) <> ""%string
  /\ APIConfig.secret (APIConfig.currentConfig st) <> ""%string
  /\ APIConfig.shownConnected
       (fst (APIConfig.handleSaveConfig "user123" "nobitex" 0 st)) "nobitex"
     = true.
Proof.
  intros st.
  assert (Hk : APIConfig.apiKey (APIConfig.currentConfig st) <> ""%string)
    by discriminate.
  assert (Hs : APIConfig.secret (APIConfig.currentConfig st) <> ""%string)
    by discriminate.
  split; [exact Hk|]. split; [exact Hs|].
  exact (proj1 (proj2 (save_then_select_round_trip "user123" "nobitex" 0 st Hk Hs))).
Defined.

(** X20: a save with the API key or the secret left empty changes
    neither the saved configurations nor the current one, logs nothing
    and reports a failure. *)
Theorem save_with_missing_field_rejected
    (userId selectedExchange : string) (now : Z) (st : APIConfig.State) :
  APIConfig.apiKey (APIConfig.currentConfig st) = ""%string
  \/ APIConfig.secret (APIConfig.currentConfig st) = ""%string ->
  let saved := APIConfig.handleSaveConfig userId selectedExchange now st in
  APIConfig.configs (fst saved) = APIConfig.configs st
  /\ APIConfig.currentConfig (fst saved) = APIConfig.currentConfig st
  /\ snd saved = []
  /\ option_map APIConfig.success (APIConfig.testResult (fst saved))
     = Some false.
Proof.
  intros H saved.
  assert (Hf : ~ filled (APIConfig.currentConfig st))
    by (unfold filled; tauto).
  unfold saved. rewrite (handleSaveConfig_unfilled _ _ _ _ Hf).
  repeat split.
Qed.

Lemma save_with_missing_field_rejected_witness :
  (APIConfig.apiKey (APIConfig.currentConfig APIConfig.initialState) = ""%string
   \/ APIConfig.secret (APIConfig.currentConfig APIConfig.initialState)
      = ""%string)
  /\ snd (APIConfig.handleSaveConfig "user123" "nobitex" 0
            APIConfig.initialState) = [].
Proof.
  assert (H : APIConfig.apiKey (APIConfig.currentConfig APIConfig.initialState)
              = ""%string
              \/ APIConfig.secret
                   (APIConfig.currentConfig APIConfig.initialState)
                 = ""%string)
    by (left; reflexivity).
  split; [exact H|].
  exact (proj1 (proj2 (proj2
    (save_with_missing_field_rejected "user123" "nobitex" 0
       APIConfig.initialState H)))).
Defined.

(** X21: testing the connection never saves anything: after any sequence
    of typing, connection tests and exchange selections without a click on
    save, the saved configurations are what they were, so from the initial
    state the status tab shows every exchange as disconnected, also after
    a successful test. *)
Theorem test_connection_never_saves
    (userId selectedExchange : string) (actions : list (Z * APIConfig.Action))
    (st : APIConfig.State) (e : entropy) :
  Forall (fun ta => not_save (snd ta)) actions ->
  let st' := fst (run (APIConfig.session userId selectedExchange actions st) e) in
  APIConfig.configs st' = APIConfig.configs st
  /\ (st = APIConfig.initialState ->
      forall exchange, APIConfig.shownConnected st' exchange = false).
Proof.
  intros Hall st'.
  assert (Hc : APIConfig.configs st' = APIConfig.configs st)
    by (unfold st', run; now apply session_not_save_configs).
  split; [exact Hc|].
  intros -> exchange. unfold APIConfig.shownConnected. rewrite Hc. reflexivity.
Qed.

Lemma test_connection_never_saves_witness :
  let actions :=
    [(0%Z, APIConfig.Type_in APIConfig.field_apiKey "key-1");
     (1%Z, APIConfig.Type_in APIConfig.field_secret "s3cret");
     (2%Z, APIConfig.Click_test)] in
  Forall (fun ta => not_save (snd ta)) actions
  /\ APIConfig.isConnected
       (APIConfig.currentConfig
          (fst (run (APIConfig.session "user123" "nobitex" actions
                       APIConfig.initialState) steady))) = true
  /\ APIConfig.shownConnected
       (fst (run (APIConfig.session "user123" "nobitex" actions
                    APIConfig.initialState) steady)) "nobitex" = false.
Proof.
  intros actions.
  assert (H : Forall (fun ta => not_save (snd ta)) actions)
    by (repeat constructor).
  split; [exact H|]. split; [reflexivity|].
  exact (proj2 (test_connection_never_saves "user123" "nobitex" actions
                  APIConfig.initialState steady H) eq_refl "nobitex"%string).
Defined.

Section SelectorFacts.

Import ExchangeSelector.

(** The selected exchange is one of the three of the table, or none. *)
Lemma currentExchange_cases (selectedExchange : string) :
  (selectedExchange = "nobitex"%string
   /\ currentExchange selectedExchange = nth_error EXCHANGES 0)
  \/ (selectedExchange = "wallex"%string
      /\ currentExchange selectedExchange = nth_error EXCHANGES 1)
  \/ (selectedExchange = "ramzinex"%string
      /\ currentExchange selectedExchange = nth_error EXCHANGES 2)
  \/ (selectedExchange <> "nobitex"%string
      /\ selectedExchange <> "wallex"%string
      /\ selectedExchange <> "ramzinex"%string
      /\ currentExchange selectedExchange = None).
Proof.
  unfold currentExchange, EXCHANGES. cbn [find value].
  destruct (String.eqb_spec "nobitex" selectedExchange) as [<- | H1];
    [left; split; reflexivity|].
  destruct (String.eqb_spec "wallex" selectedExchange) as [<- | H2];
    [right; left; split; reflexivity|].
  destruct (String.eqb_spec "ramzinex" selectedExchange) as [<- | H3];
    [right; right; left; split; reflexivity|].
  right. right. right. repeat split; congruence.
Qed.

Definition one_badge (pair : string) : Prop :=
  pairBadges pair = [badge_toman] \/ pairBadges pair = [badge_USDT].

End SelectorFacts.

(** X22: whatever exchange is selected, the pair select is never empty
    and offers only pairs of ALL_PAIRS, without repeats; an exchange the
    table does not know gets all of ALL_PAIRS; and the connection dot is
    on for nobitex only. *)
Theorem available_pairs_within_all_pairs (selectedExchange : string) :
  ExchangeSelector.availablePairs selectedExchange <> []
  /\ incl (ExchangeSelector.availablePairs selectedExchange)
       ExchangeSelector.ALL_PAIRS
  /\ NoDup (ExchangeSelector.availablePairs selectedExchange)
  /\ (ExchangeSelector.currentExchange selectedExchange = None ->
      ExchangeSelector.availablePairs selectedExchange
      = ExchangeSelector.ALL_PAIRS)
  /\ (ExchangeSelector.shownConnected selectedExchange = true
      <-> selectedExchange = "nobitex"%string).
Proof.
  unfold ExchangeSelector.availablePairs, ExchangeSelector.shownConnected.
  destruct (currentExchange_cases selectedExchange)
    as [[Hs ->] | [[Hs ->] | [[Hs ->] | [H1 [H2 [H3 ->]]]]]];
    cbn [nth_error ExchangeSelector.EXCHANGES ExchangeSelector.pairs
         ExchangeSelector.optionDisabled ExchangeSelector.status negb];
    (split; [discriminate|]);
    (split; [intros p Hp; cbn in Hp |- *; tauto|]);
    (split; [repeat constructor; cbn; intuition discriminate|]);
    (split; [intros; try reflexivity; discriminate|]);
    split; intros H; try reflexivity; try discriminate; try assumption;
    try (subst; discriminate); try contradiction.
Qed.

(** X23: every pair the pair select offers, for whatever exchange, shows
    exactly one currency badge: the toman badge when the pair contains
    IRT, the USDT badge otherwise. *)
Theorem every_available_pair_has_one_badge (selectedExchange : string) :
  Forall
    (fun pair =>
       (ExchangeSelector.includes pair "IRT" = true
        /\ ExchangeSelector.pairBadges pair = [ExchangeSelector.badge_toman])
       \/ (ExchangeSelector.includes pair "IRT" = false
           /\ ExchangeSelector.pairBadges pair = [ExchangeSelector.badge_USDT]))
    (ExchangeSelector.availablePairs selectedExchange).
Proof.
  unfold ExchangeSelector.availablePairs.
  destruct (currentExchange_cases selectedExchange)
    as [[Hs ->] | [[Hs ->] | [[Hs ->] | [H1 [H2 [H3 ->]]]]]];
    cbn [nth_error ExchangeSelector.EXCHANGES ExchangeSelector.pairs
         ExchangeSelector.ALL_PAIRS];
    repeat (apply Forall_cons;
            [first [left; split; vm_compute; reflexivity
                   |right; split; vm_compute; reflexivity]|]);
    apply Forall_nil.
Qed.
